(** * js-lua helper scripts: the manifest patchers and the development server

    A shallow embedding of the three Python scripts of the repository,

      - [add_deps.py] and [add_all_deps.py], which merge hard-coded
        dependency versions into [package.json], and
      - [serve.py], whose [UltraFastHandler] extends the standard
        library's [http.server.SimpleHTTPRequestHandler],

    together with the properties the specification states about them.

    Python [str] values are Rocq strings.  The request line and the header
    lines reach the handler decoded from ISO-8859-1, so that one character
    is one octet.  Python statements that can raise are computations in a
    state-and-exception monad: as in Python, what was done before the
    exception stays done. *)

From Stdlib Require Import ZArith String Ascii List Lia Bool.
From stdpp Require Import base option strings gmap list pretty.
Import ListNotations.

Local Open Scope Z_scope.

(** ** Python string operations *)

Module Str.

(** [s.endswith(suffix)] *)
Fixpoint endswith (s suffix : string) : bool :=
  String.eqb s suffix ||
  match s with
  | EmptyString => false
  | String _ s' => endswith s' suffix
  end.

(** [s.startswith(prefix)] *)
Fixpoint startswith (s prefix : string) : bool :=
  match prefix, s with
  | EmptyString, _ => true
  | String c prefix', String d s' => Ascii.eqb c d && startswith s' prefix'
  | String _ _, EmptyString => false
  end.

(** [sub in s] for two strings: [sub] occurs somewhere in [s]. *)
Fixpoint contains (sub s : string) : bool :=
  startswith s sub ||
  match s with
  | EmptyString => false
  | String _ s' => contains sub s'
  end.

(** [c.lower()] on the ASCII range, which is where header names and
    the file extensions of interest live. *)
Definition lower_ascii (c : ascii) : ascii :=
  let n := nat_of_ascii c in
  if (65 <=? n)%nat && (n <=? 90)%nat then ascii_of_nat (n + 32) else c.

Fixpoint lower (s : string) : string :=
  match s with
  | EmptyString => EmptyString
  | String c s' => String (lower_ascii c) (lower s')
  end.

(** [s.split(sep, 1)[0]]: the part of [s] before the first [sep]. *)
Fixpoint before (sep : ascii) (s : string) : string :=
  match s with
  | EmptyString => EmptyString
  | String c s' => if Ascii.eqb c sep then EmptyString else String c (before sep s')
  end.

(** [s.rfind(c)]: the last index of [c] in [s], or [-1]. *)
Fixpoint rfind (c : ascii) (s : string) : Z :=
  match s with
  | EmptyString => -1
  | String a s' =>
      let i := rfind c s' in
      if 0 <=? i then i + 1 else if Ascii.eqb a c then 0 else -1
  end.

(** [s[i:j]] for [0 <= i <= j]. *)
Definition slice (s : string) (i j : Z) : string :=
  String.substring (Z.to_nat i) (Z.to_nat (j - i)) s.

(** [s[i:]] for [0 <= i]. *)
Definition slice_from (s : string) (i : Z) : string :=
  String.substring (Z.to_nat i) (String.length s - Z.to_nat i) s.

(** The value of a hexadecimal digit. *)
Definition hex_digit (c : ascii) : option nat :=
  let n := nat_of_ascii c in
  if (48 <=? n)%nat && (n <=? 57)%nat then Some (n - 48)%nat
  else if (65 <=? n)%nat && (n <=? 70)%nat then Some (n - 55)%nat
  else if (97 <=? n)%nat && (n <=? 102)%nat then Some (n - 87)%nat
  else None.

(** [urllib.parse.unquote(s)] where every escape is of the ASCII range:
    [%XX] stands for the character of code [XX], and a percent sign that
    two hexadecimal digits do not follow stays. *)
Fixpoint unquote (s : string) : string :=
  match s with
  | EmptyString => EmptyString
  | String c rest =>
      if Ascii.eqb c "%" then
        match rest with
        | String a (String b rest') =>
            match hex_digit a, hex_digit b with
            | Some h, Some l => String (ascii_of_nat (16 * h + l)) (unquote rest')
            | _, _ => String c (unquote rest)
            end
        | _ => String c (unquote rest)
        end
      else String c (unquote rest)
  end.

(** The string has an embedded NUL. *)
Fixpoint has_nul (s : string) : bool :=
  match s with
  | EmptyString => false
  | String c rest => Ascii.eqb c "000" || has_nul rest
  end.

End Str.

(** ** Exceptions and the state-and-exception monad *)

Inductive exn : Type :=
| FileNotFoundError (filename : string)
| IsADirectoryError (filename : string)
| KeyError (key : string)
| TypeError
| ValueError
| UnicodeEncodeError.

Inductive outcome (A : Type) : Type :=
| Returned (a : A)
| Raised (e : exn).
Arguments Returned {A} a.
Arguments Raised {A} e.

Definition returned {A} (o : outcome A) : bool :=
  match o with Returned _ => true | Raised _ => false end.

Section Monad.
Context {S : Type}.

Definition M (A : Type) : Type := S -> outcome A * S.

Definition ret {A} (a : A) : M A := fun s => (Returned a, s).

Definition bind {A B} (m : M A) (k : A -> M B) : M B :=
  fun s =>
    match m s with
    | (Returned a, s') => k a s'
    | (Raised e, s') => (Raised e, s')
    end.

Definition raise {A} (e : exn) : M A := fun s => (Raised e, s).

Definition get : M S := fun s => (Returned s, s).

Definition modify (f : S -> S) : M unit := fun s => (Returned tt, f s).

(** A pure step that may raise. *)
Definition lift {A} (o : outcome A) : M A := fun s => (o, s).

(** [for x in xs: acc = body(acc, x)], stopping at the first exception. *)
Fixpoint for_each {A B} (xs : list A) (acc : B) (body : B -> A -> M B) : M B :=
  match xs with
  | [] => ret acc
  | x :: xs' => bind (body acc x) (fun acc' => for_each xs' acc' body)
  end.
End Monad.
Arguments M : clear implicits.

Declare Scope py_scope.
Delimit Scope py_scope with py.
Notation "x <- m ;; k" := (bind m (fun x => k))
  (at level 20, m at level 99, k at level 200, only parsing) : py_scope.
Notation "m ;; k" := (bind m (fun _ => k))
  (at level 100, k at level 200, right associativity, only parsing) : py_scope.
Local Open Scope py_scope.

(** ** The manifest patchers *)

(** What [json.load] returns.  A Python [dict] keeps its keys in insertion
    order and [json.dump] writes them in that order, so an object is a list
    of pairs. *)
#[warnings="-register-all"]
Inductive json : Type :=
| JNull
| JBool (b : bool)
| JInt (n : Z)
| JFloat (literal : string)
| JStr (s : string)
| JList (items : list json)
| JDict (items : list (string * json)).

Module Py.

Fixpoint dict_get (items : list (string * json)) (key : string) : option json :=
  match items with
  | [] => None
  | (k, v) :: rest => if String.eqb k key then Some v else dict_get rest key
  end.

(** [d[key] = value]: an existing key keeps its place, a new one goes last. *)
Fixpoint dict_set (items : list (string * json)) (key : string) (value : json)
  : list (string * json) :=
  match items with
  | [] => [(key, value)]
  | (k, v) :: rest =>
      if String.eqb k key then (k, value) :: rest
      else (k, v) :: dict_set rest key value
  end.

Definition is_str (key : string) (x : json) : bool :=
  match x with JStr s => String.eqb s key | _ => false end.

(** [key in container], for a string [key]. *)
Definition contains (key : string) (container : json) : outcome bool :=
  match container with
  | JDict items => Returned (bool_decide (is_Some (dict_get items key)))
  | JList items => Returned (existsb (is_str key) items)
  | JStr s => Returned (Str.contains key s)
  | JNull | JBool _ | JInt _ | JFloat _ => Raised TypeError
  end.

(** [container[key]], for a string [key]. *)
Definition getitem (container : json) (key : string) : outcome json :=
  match container with
  | JDict items =>
      match dict_get items key with
      | Some v => Returned v
      | None => Raised (KeyError key)
      end
  | JList _ | JStr _ | JNull | JBool _ | JInt _ | JFloat _ => Raised TypeError
  end.

(** [container[key] = value], for a string [key]. *)
Definition setitem (container : json) (key : string) (value : json) : outcome json :=
  match container with
  | JDict items => Returned (JDict (dict_set items key value))
  | JList _ | JStr _ | JNull | JBool _ | JInt _ | JFloat _ => Raised TypeError
  end.

(** [container[outer][key] = value]: the object under [outer] is changed
    in place, which shows in [container] as a new value under the same
    key. *)
Definition setitem_at (container : json) (outer key : string) (value : json)
  : outcome json :=
  match getitem container outer with
  | Returned inner =>
      match setitem inner key value with
      | Returned inner' => setitem container outer inner'
      | Raised e => Raised e
      end
  | Raised e => Raised e
  end.

End Py.

(** The world of a patcher run: the document stored in [package.json],
    what was printed, and how many times the file was opened for writing
    and written.  [json.load] on a file that is not JSON raises before
    anything else happens; a run starts from a file that holds a document. *)
Record script : Type := Script {
  package_json : json;
  stdout : list string;
  writes : nat
}.

Definition json_load : M script json :=
  s <- get ;; ret (package_json s).

Definition json_dump (package : json) : M script unit :=
  modify (fun s => Script package (stdout s) (S (writes s))).

Definition print (line : string) : M script unit :=
  modify (fun s => Script (package_json s) (stdout s ++ [line]) (writes s)).

Module AddDeps.

Definition missing_deps : list (string * string) :=
  [ ("connect-mongo", "^4.6.0");
    ("express", "^4.18.2");
    ("express-session", "^1.17.3");
    ("mongoose", "^7.5.0");
    ("socket.io", "^4.7.2");
    ("express-fileupload", "^1.4.0");
    ("winston", "^3.10.0");
    ("dotenv", "^16.3.1") ].

Definition main : M script unit :=
  package <- json_load ;;
  present <- lift (Py.contains "dependencies" package) ;;
  package <- (if negb present
              then lift (Py.setitem package "dependencies" (JDict []))
              else ret package) ;;
  package <- for_each missing_deps package (fun package '(dep, version) =>
               deps <- lift (Py.getitem package "dependencies") ;;
               present <- lift (Py.contains dep deps) ;;
               if negb present then
                 package <- lift (Py.setitem_at package "dependencies" dep (JStr version)) ;;
                 print ("Added " +:+ dep +:+ ": " +:+ version) ;;
                 ret package
               else ret package) ;;
  json_dump package ;;
  print "Dependencies updated!".

End AddDeps.

Module AddAllDeps.

Definition all_deps : list (string * string) :=
  [ ("handlebars", "^4.7.8");
    ("@sentry/node", "^7.77.0");
    ("express-fileupload", "^1.4.0");
    ("swagger-jsdoc", "^6.2.8");
    ("swagger-ui-express", "^5.0.0");
    ("node-cron", "^3.0.2");
    ("express-validator", "^7.0.1");
    ("cookie-parser", "^1.4.6");
    ("express-ejs-layouts", "^2.5.1");
    ("method-override", "^3.0.0");
    ("moment", "^2.29.4");
    ("uuid", "^9.0.1");
    ("axios", "^1.6.0");
    ("lodash", "^4.17.21");
    ("async", "^3.2.4") ].

(** The f-string of line 35 starts with an escaped backslash: what is
    printed starts with a backslash and an [n], not with a line break. *)
Definition main : M script unit :=
  package <- json_load ;;
  r <- for_each all_deps (package, 0%nat) (fun '(package, added_count) '(dep, version) =>
         deps <- lift (Py.getitem package "dependencies") ;;
         present <- lift (Py.contains dep deps) ;;
         if negb present then
           package <- lift (Py.setitem_at package "dependencies" dep (JStr version)) ;;
           print ("Added " +:+ dep +:+ ": " +:+ version) ;;
           ret (package, S added_count)
         else ret (package, added_count)) ;;
  let '(package, added_count) := r in
  if (0 <? added_count)%nat then
    json_dump package ;;
    print ("\nAdded " +:+ pretty added_count +:+ " dependencies!")
  else
    print "No new dependencies to add.".

End AddAllDeps.

(** Running a patcher on a stored document. *)
Definition run (main : M script unit) (doc : json) : outcome unit * script :=
  main (Script doc [] 0).

(** The dependencies section of a manifest, when the manifest is an object
    and the section is one, and the version it records for a key. *)
Definition dependencies_of (doc : json) : option (list (string * json)) :=
  match doc with
  | JDict items =>
      match Py.dict_get items "dependencies" with
      | Some (JDict deps) => Some deps
      | _ => None
      end
  | _ => None
  end.

Definition dependency_version (doc : json) (key : string) : option json :=
  match dependencies_of doc with
  | Some deps => Py.dict_get deps key
  | None => None
  end.

(** ** The development server: what it runs on

    [serve.py] defines two methods; everything else is inherited from the
    standard library (CPython 3.11, [http/server.py]).  The inherited
    methods are modelled below as far as their control flow and their calls
    to [send_response], [send_header] and [end_headers] go.  What they
    compute from the operating system, the clock and text formatting is a
    field of [Env].

    The model starts where [parse_request] has succeeded on an HTTP/1.x
    request line: [command], [path] and [headers] are set.  A request
    line that does not parse is answered by [parse_request] itself, before
    [self.path] is set, and an HTTP/0.9 request is sent no header at all;
    neither is a request of the model.  The file system stays as it is
    while a request is handled, every file in it can be read, and its time
    stamps are ones the library can format.  What the standard library
    does with a path it cannot process is part of the model: a name the
    operating system interface refuses, a request path [urlsplit] refuses
    and a directory listing that cannot be encoded each end in an
    exception that nothing catches. *)

Definition bytes : Type := list Byte.byte.

(** What the operating system answers for a path string.  A directory
    that cannot be listed has no listing.  [Invalid] is a string that is
    no file name at all, as one with an embedded NUL: the tests of
    [os.path] answer [False] for it, and [open] raises [ValueError], which
    is no [OSError]. *)
Inductive node : Type :=
| File (content : bytes) (mtime : Z)
| Dir (listing : option (list string))
| Invalid.

Record Env : Type := {
  (** the file system as the server process sees it, from the working
      directory fixed at line 59: what a path string passed to the
      operating system names, if anything *)
  fs : string -> option node;
  (** [sys.getfilesystemencoding()] *)
  fs_encoding : string;
  (** [self.version_string()] *)
  version_string : string;
  (** [self.date_time_string(timestamp)]; [None] is the current time *)
  date_time_string : option Z -> string;
  (** [self.responses]: reason phrase and explanation of a status code *)
  responses : Z -> option (string * string);
  (** [self.translate_path(path)]: the file name a request path resolves
      to below the served directory *)
  translate_path : string -> string;
  (** [urllib.parse.urlsplit(path).path]; [None] where [urlsplit] raises
      [ValueError], as on [http://[/] *)
  urlsplit_path : string -> option string;
  (** the redirect target [send_head] builds for a directory requested
      without its final slash *)
  redirect_location : string -> string;
  (** the HTML page of [send_error], encoded *)
  error_body : Z -> string -> string -> bytes;
  (** the HTML page of [list_directory], encoded; [None] where the
      encoding raises [UnicodeEncodeError], as for a request path with an
      escaped lone surrogate *)
  listing_body : string -> string -> list string -> option bytes;
  (** [email.utils.parsedate_to_datetime], as [send_head] uses it: the
      time in seconds when the value parses and is naive or UTC *)
  parsedate_utc : string -> option Z;
  (** [repr] as used by the percent-r format *)
  repr : string -> string;
  (** the strict table of [mimetypes] before line 9 of [serve.py] runs *)
  types_map : gmap string string
}.

(** [env] over another file system. *)
Definition with_fs (env : Env) (files : string -> option node) : Env := {|
  fs := files;
  fs_encoding := fs_encoding env;
  version_string := version_string env;
  date_time_string := date_time_string env;
  responses := responses env;
  translate_path := translate_path env;
  urlsplit_path := urlsplit_path env;
  redirect_location := redirect_location env;
  error_body := error_body env;
  listing_body := listing_body env;
  parsedate_utc := parsedate_utc env;
  repr := repr env;
  types_map := types_map env
|}.

Record request : Type := Request {
  command : string;
  path : string;
  headers : list (string * string)
}.

(** [self.headers], an [email.message.Message]: names compare without
    regard to case and the first occurrence wins. *)
Module Headers.

Fixpoint find (hs : list (string * string)) (name : string) : option string :=
  match hs with
  | [] => None
  | (k, v) :: rest =>
      if String.eqb (Str.lower k) (Str.lower name) then Some v else find rest name
  end.

(** [headers.get(name, failobj)] *)
Definition get (hs : list (string * string)) (name failobj : string) : string :=
  match find hs name with Some v => v | None => failobj end.

(** [name in headers] *)
Definition contains (hs : list (string * string)) (name : string) : bool :=
  match find hs name with Some _ => true | None => false end.

End Headers.

(** What is written to the client.  A header line stays a line instead of
    its Latin-1 octets. *)
Inductive line : Type :=
| StatusLine (version : string) (code : Z) (message : string)
| HeaderLine (keyword value : string)
| BlankLine.

Inductive item : Type :=
| Line (l : line)
| Octet (b : Byte.byte).

Record handler : Type := Handler {
  headers_buffer : list line;
  wfile : list item;
  close_connection : bool
}.

(** The handler as [parse_request] leaves it under [protocol_version]
    HTTP/1.0: nothing buffered, nothing written, and the connection to be
    closed after the request. *)
Definition fresh : handler := Handler [] [] true.

Definition buffer_line (l : line) : M handler unit :=
  modify (fun h => Handler (headers_buffer h ++ [l]) (wfile h) (close_connection h)).

Definition set_close_connection (b : bool) : M handler unit :=
  modify (fun h => Handler (headers_buffer h) (wfile h) b).

(** [self.wfile.write(data)] *)
Definition wfile_write (data : bytes) : M handler unit :=
  modify (fun h => Handler (headers_buffer h) (wfile h ++ map Octet data) (close_connection h)).

(** ** os and os.path *)

Module Os.
Section Os.
Variable env : Env.

Definition exists_ (p : string) : bool :=
  match fs env p with Some (File _ _) | Some (Dir _) => true | _ => false end.

Definition isdir (p : string) : bool :=
  match fs env p with Some (Dir _) => true | _ => false end.

Definition isfile (p : string) : bool :=
  match fs env p with Some (File _ _) => true | _ => false end.

(** [open(p, 'rb')] followed by reading the file to its end. *)
Definition read {S} (p : string) : M S bytes :=
  match fs env p with
  | Some (File content _) => ret content
  | Some (Dir _) => raise (IsADirectoryError p)
  | Some Invalid => raise ValueError
  | None => raise (FileNotFoundError p)
  end.

(** [os.path.join(a, b)] for a relative [b]. *)
Definition join (a b : string) : string :=
  if String.eqb a "" || Str.endswith a "/" then a +:+ b else a +:+ "/" +:+ b.

(** [posixpath.splitext(p)] *)
Definition splitext (p : string) : string * string :=
  let sepIndex := Str.rfind "/" p in
  let dotIndex := Str.rfind "." p in
  if (sepIndex <? dotIndex)
     && negb (forallb (Ascii.eqb ".") (list_ascii_of_string (Str.slice p (sepIndex + 1) dotIndex)))
  then (Str.slice p 0 dotIndex, Str.slice_from p dotIndex)
  else (p, "").
End Os.
End Os.

(** ** Inherited: BaseHTTPRequestHandler

    Logging to standard error is left out, and so are the tests
    [self.request_version != 'HTTP/0.9'] of [send_response_only],
    [send_header] and [end_headers], which hold for every request of the
    model.  [self_end_headers] is [self.end_headers], the method the
    instance's class provides: the inherited code reaches the override of
    [serve.py] through it. *)

Module BaseHTTPRequestHandler.
Section Base.
Variable env : Env.
Variable req : request.
Variable self_end_headers : M handler unit.

Definition protocol_version : string := "HTTP/1.0".
Definition error_content_type : string := "text/html;charset=utf-8".

Definition send_response_only (code : Z) (message : option string) : M handler unit :=
  let message :=
    match message with
    | Some m => m
    | None => match responses env code with Some (short, _) => short | None => "" end
    end in
  buffer_line (StatusLine protocol_version code message).

Definition send_header (keyword value : string) : M handler unit :=
  buffer_line (HeaderLine keyword value) ;;
  if String.eqb (Str.lower keyword) "connection" then
    if String.eqb (Str.lower value) "close" then set_close_connection true
    else if String.eqb (Str.lower value) "keep-alive" then set_close_connection false
    else ret tt
  else ret tt.

Definition send_response (code : Z) (message : option string) : M handler unit :=
  send_response_only code message ;;
  send_header "Server" (version_string env) ;;
  send_header "Date" (date_time_string env None).

Definition flush_headers : M handler unit :=
  modify (fun h => Handler [] (wfile h ++ map Line (headers_buffer h)) (close_connection h)).

Definition end_headers : M handler unit :=
  buffer_line BlankLine ;;
  flush_headers.

Definition send_error (code : Z) (message : option string) : M handler unit :=
  let '(shortmsg, longmsg) :=
    match responses env code with Some r => r | None => ("???", "???") end in
  let message := match message with Some m => m | None => shortmsg end in
  let explain := longmsg in
  send_response code (Some message) ;;
  send_header "Connection" "close" ;;
  body <- (if (200 <=? code) && negb (bool_decide (code ∈ [204; 205; 304])) then
             let body := error_body env code message explain in
             send_header "Content-Type" error_content_type ;;
             send_header "Content-Length" (pretty (length body)) ;;
             ret (Some body)
           else ret None) ;;
  self_end_headers ;;
  match body with
  | Some (b :: data) =>
      if negb (String.eqb (command req) "HEAD") then wfile_write (b :: data) else ret tt
  | _ => ret tt
  end.
End Base.
End BaseHTTPRequestHandler.

(** ** Inherited: SimpleHTTPRequestHandler *)

Module SimpleHTTPRequestHandler.
Section Simple.
Variable env : Env.
Variable req : request.
Variable self_end_headers : M handler unit.

Abbreviation send_response := (BaseHTTPRequestHandler.send_response env).
Abbreviation send_header := BaseHTTPRequestHandler.send_header.
Abbreviation send_error := (BaseHTTPRequestHandler.send_error env req self_end_headers).

(** [self.path] *)
Definition self_path : string := path req.

Definition extensions_map : gmap string string :=
  {[ ".gz" := "application/gzip";
     ".Z" := "application/octet-stream";
     ".bz2" := "application/x-bzip2";
     ".xz" := "application/x-xz" ]}.

(** [self.guess_type(path)].  [table] is the strict table of
    [mimetypes] at the time of the request.  Of [mimetypes.guess_type]
    the look-up of the lower-cased extension in that table is modelled;
    its rewriting of compound suffixes ([.tgz], [.svgz], ...) and of
    encoding suffixes is not. *)
Definition guess_type (table : gmap string string) (path : string) : string :=
  let ext := snd (Os.splitext path) in
  match extensions_map !! ext with
  | Some t => t
  | None =>
      let ext := Str.lower ext in
      match extensions_map !! ext with
      | Some t => t
      | None =>
          match table !! ext with
          | Some guess => guess
          | None => "application/octet-stream"
          end
      end
  end.

Definition list_directory (path : string) : M handler (option bytes) :=
  match fs env path with
  | Some (Dir (Some list)) =>
      match listing_body env self_path path list with
      | Some encoded =>
          send_response 200 None ;;
          send_header "Content-type" ("text/html; charset=" +:+ fs_encoding env) ;;
          send_header "Content-Length" (pretty (length encoded)) ;;
          self_end_headers ;;
          ret (Some encoded)
      | None => raise UnicodeEncodeError
      end
  | Some Invalid => raise ValueError
  | _ =>
      send_error 404 (Some "No permission to list directory") ;;
      ret None
  end.

(** The conditional request of [send_head]: the file is not newer than
    the date the client holds. *)
Definition not_modified (mtime : Z) : bool :=
  if Headers.contains (headers req) "If-Modified-Since"
     && negb (Headers.contains (headers req) "If-None-Match")
  then
    match parsedate_utc env (Headers.get (headers req) "If-Modified-Since" "") with
    | Some ims => mtime <=? ims
    | None => false
    end
  else false.

(** The tail of [send_head], from [ctype = self.guess_type(path)] on. *)
Definition send_file (table : gmap string string) (path : string)
  : M handler (option bytes) :=
  let ctype := guess_type table path in
  if Str.endswith path "/" then
    send_error 404 (Some "File not found") ;;
    ret None
  else
    match fs env path with
    | Some (File content mtime) =>
        if not_modified mtime then
          send_response 304 None ;;
          self_end_headers ;;
          ret None
        else
          send_response 200 None ;;
          send_header "Content-type" ctype ;;
          send_header "Content-Length" (pretty (length content)) ;;
          send_header "Last-Modified" (date_time_string env (Some mtime)) ;;
          self_end_headers ;;
          ret (Some content)
    | Some Invalid => raise ValueError
    | _ =>
        send_error 404 (Some "File not found") ;;
        ret None
    end.

(** [send_head]: the response code and headers; the result is the
    content still to be copied to the client, if any. *)
Definition send_head (table : gmap string string) : M handler (option bytes) :=
  let path := translate_path env self_path in
  if Os.isdir env path then
    match urlsplit_path env self_path with
    | Some parts_path =>
        if negb (Str.endswith parts_path "/") then
          send_response 301 None ;;
          send_header "Location" (redirect_location env self_path) ;;
          send_header "Content-Length" "0" ;;
          self_end_headers ;;
          ret None
        else if Os.isfile env (Os.join path "index.html") then
          send_file table (Os.join path "index.html")
        else if Os.isfile env (Os.join path "index.htm") then
          send_file table (Os.join path "index.htm")
        else list_directory path
    | None => raise ValueError
    end
  else send_file table path.

Definition do_GET (table : gmap string string) : M handler unit :=
  f <- send_head table ;;
  match f with
  | Some content => wfile_write content
  | None => ret tt
  end.

Definition do_HEAD (table : gmap string string) : M handler unit :=
  f <- send_head table ;;
  ret tt.
End Simple.
End SimpleHTTPRequestHandler.

(** ** serve.py *)

(** Line 9: [mimetypes.add_type('application/wasm', '.wasm')]. *)
Definition add_type (type ext : string) (table : gmap string string) : gmap string string :=
  <[ ext := type ]> table.

Definition registered_types (env : Env) : gmap string string :=
  add_type "application/wasm" ".wasm" (types_map env).

Module UltraFastHandler.
Section UltraFast.
Variable env : Env.
Variable req : request.

Abbreviation send_response := (BaseHTTPRequestHandler.send_response env).
Abbreviation send_header := BaseHTTPRequestHandler.send_header.

Definition end_headers : M handler unit :=
  send_header "Cross-Origin-Opener-Policy" "same-origin" ;;
  send_header "Cross-Origin-Embedder-Policy" "require-corp" ;;
  (if Str.endswith (path req) ".wasm" then
     send_header "Cache-Control" "public, max-age=31536000, immutable"
   else ret tt) ;;
  BaseHTTPRequestHandler.end_headers.

(** [do_GET].  A branch that ends in [return] yields [true]; the call of
    [super().do_GET()] below the [if] runs when none did. *)
Definition do_GET : M handler unit :=
  answered <-
    (if Str.endswith (path req) ".wasm" then
       let brotli_path := path req +:+ ".br" in
       let gzip_path := path req +:+ ".gz" in
       let accept_encoding := Headers.get (headers req) "Accept-Encoding" "" in
       if Str.contains "br" accept_encoding && Os.exists_ env ("." +:+ brotli_path) then
         send_response 200 None ;;
         send_header "Content-Type" "application/wasm" ;;
         send_header "Content-Encoding" "br" ;;
         send_header "Cache-Control" "public, max-age=31536000, immutable" ;;
         end_headers ;;
         data <- Os.read env ("." +:+ brotli_path) ;;
         wfile_write data ;;
         ret true
       else if Str.contains "gzip" accept_encoding && Os.exists_ env ("." +:+ gzip_path) then
         send_response 200 None ;;
         send_header "Content-Type" "application/wasm" ;;
         send_header "Content-Encoding" "gzip" ;;
         send_header "Cache-Control" "public, max-age=31536000, immutable" ;;
         end_headers ;;
         data <- Os.read env ("." +:+ gzip_path) ;;
         wfile_write data ;;
         ret true
       else ret false
     else ret false) ;;
  if answered then ret tt
  else SimpleHTTPRequestHandler.do_GET env req end_headers (registered_types env).

(** [handle_one_request] once the request is parsed: [do_GET] is the
    override, [do_HEAD] is inherited, and no other [do_] method exists. *)
Definition handle : M handler unit :=
  if String.eqb (command req) "GET" then do_GET
  else if String.eqb (command req) "HEAD" then
    SimpleHTTPRequestHandler.do_HEAD env req end_headers (registered_types env)
  else
    BaseHTTPRequestHandler.send_error env req end_headers 501
      (Some ("Unsupported method (" +:+ repr env (command req) +:+ ")")).
End UltraFast.
End UltraFastHandler.

(** ** Reading a response

    A response is read off the octets and lines written to the client: the
    status line, the header lines up to the blank line, and the octets
    after it. *)

Record response : Type := Response {
  status : Z;
  header_lines : list (string * string);
  body : bytes
}.

Fixpoint read_headers (w : list item) : option (list (string * string) * list item) :=
  match w with
  | Line (HeaderLine k v) :: rest =>
      match read_headers rest with
      | Some (hs, rest') => Some ((k, v) :: hs, rest')
      | None => None
      end
  | Line BlankLine :: rest => Some ([], rest)
  | _ => None
  end.

Fixpoint read_body (w : list item) : option bytes :=
  match w with
  | [] => Some []
  | Octet b :: rest =>
      match read_body rest with
      | Some data => Some (b :: data)
      | None => None
      end
  | Line _ :: _ => None
  end.

Definition response_of (w : list item) : option response :=
  match w with
  | Line (StatusLine _ code _) :: rest =>
      match read_headers rest with
      | Some (hs, rest') =>
          match read_body rest' with
          | Some data => Some (Response code hs data)
          | None => None
          end
      | None => None
      end
  | _ => None
  end.

(** The values of the header [name]; header names compare without regard
    to case. *)
Definition header_values (r : response) (name : string) : list string :=
  map snd (filter (fun kv => String.eqb (Str.lower (fst kv)) (Str.lower name) = true)
                  (header_lines r)).

(** Every header line written, in order. *)
Fixpoint headers_written (w : list item) : list (string * string) :=
  match w with
  | [] => []
  | Line (HeaderLine k v) :: rest => (k, v) :: headers_written rest
  | _ :: rest => headers_written rest
  end.

(** ** The decisions of [do_GET], named

    The conditions of the [if] and the [elif] at lines 21 and 33, for
    stating what follows from them. *)

Section Decisions.
Variable env : Env.
Variable req : request.

Definition accept_encoding : string := Headers.get (headers req) "Accept-Encoding" "".
Definition brotli_path : string := "." +:+ path req +:+ ".br".
Definition gzip_path : string := "." +:+ path req +:+ ".gz".

Definition brotli_offered : bool :=
  Str.contains "br" accept_encoding && Os.exists_ env brotli_path.

Definition gzip_offered : bool :=
  Str.contains "gzip" accept_encoding && Os.exists_ env gzip_path.

(** The request reaches [super().do_GET()]. *)
Definition falls_back : bool :=
  negb (Str.endswith (path req) ".wasm" && (brotli_offered || gzip_offered)).

(** What either compressed branch does, for its encoding and the path of
    its sibling: lines 22 to 29 and 34 to 41. *)
Definition serve_compressed (encoding sibling : string) : M handler unit :=
  BaseHTTPRequestHandler.send_response env 200 None ;;
  BaseHTTPRequestHandler.send_header "Content-Type" "application/wasm" ;;
  BaseHTTPRequestHandler.send_header "Content-Encoding" encoding ;;
  BaseHTTPRequestHandler.send_header "Cache-Control" "public, max-age=31536000, immutable" ;;
  UltraFastHandler.end_headers req ;;
  data <- Os.read env ("." +:+ sibling) ;;
  wfile_write data.

(** The fall-back itself: the inherited [do_GET] on this handler. *)
Definition raw_fallback : M handler unit :=
  SimpleHTTPRequestHandler.do_GET env req (UltraFastHandler.end_headers req)
    (registered_types env).

(** What [do_GET] writes in a compressed branch when the sibling is a
    regular file. *)
Definition compressed_response (encoding : string) (content : bytes) : response :=
  Response 200
    [ ("Server", version_string env);
      ("Date", date_time_string env None);
      ("Content-Type", "application/wasm");
      ("Content-Encoding", encoding);
      ("Cache-Control", "public, max-age=31536000, immutable");
      ("Cross-Origin-Opener-Policy", "same-origin");
      ("Cross-Origin-Embedder-Policy", "require-corp");
      ("Cache-Control", "public, max-age=31536000, immutable") ]
    content.
End Decisions.

(** The response to a request on a fresh handler, and how the method ended. *)
Definition answer (m : M handler unit) : outcome unit * option response :=
  let '(o, h) := m fresh in (o, response_of (wfile h)).

(** ** A small site to run the model on

    The server runs in [/srv/www].  A file appears under the relative name
    the sibling tests use and under the absolute name [translate_path]
    yields. *)

Module Site.

Definition directory : string := "/srv/www".

Definition at_ (name : string) (n : node) : list (string * node) :=
  [ ("." +:+ name, n); (directory +:+ name, n) ].

Fixpoint find (files : list (string * node)) (p : string) : option node :=
  match files with
  | [] => None
  | (q, n) :: rest => if String.eqb q p then Some n else find rest p
  end.

Definition reasons (code : Z) : option (string * string) :=
  if code =? 200 then Some ("OK", "Request fulfilled, document follows")
  else if code =? 301 then Some ("Moved Permanently", "Object moved permanently -- see URI list")
  else if code =? 304 then Some ("Not Modified", "Document has not changed since given time")
  else if code =? 404 then Some ("Not Found", "Nothing matches the given URI")
  else if code =? 501 then Some ("Not Implemented", "Server does not support this operation")
  else None.

(** The environment of a site holding [files].  A string with an
    embedded NUL is no file name.  [translate_path] is given for request
    paths made of plain segments and ASCII escapes, where it drops the
    query and the fragment, unquotes and prefixes the served directory.
    The two HTML pages are cut down to a line, and one date is known to
    the parser. *)
Definition env (files : list (string * node)) : Env := {|
  fs := fun p => if Str.has_nul p then Some Invalid else find files p;
  fs_encoding := "utf-8";
  version_string := "SimpleHTTP/0.6 Python/3.11.2";
  date_time_string := fun t =>
    match t with
    | None => "Tue, 03 Nov 2026 12:00:00 GMT"
    | Some _ => "Thu, 01 Jan 2026 00:00:00 GMT"
    end;
  responses := reasons;
  translate_path := fun p => directory +:+ Str.unquote (Str.before "#" (Str.before "?" p));
  urlsplit_path := fun p => Some (Str.before "#" (Str.before "?" p));
  redirect_location := fun p => p +:+ "/";
  error_body := fun code message explain => list_byte_of_string ("<h1>" +:+ message +:+ "</h1>");
  listing_body := fun self_path path names =>
    Some (list_byte_of_string (String.concat " " names));
  parsedate_utc := fun s =>
    if String.eqb s "Fri, 01 Jan 2027 00:00:00 GMT" then Some 1798761600 else None;
  repr := fun s => "'" +:+ s +:+ "'";
  types_map := {[ ".html" := "text/html"; ".js" := "text/javascript" ]}
|}.

Definition wasm : bytes := list_byte_of_string "wasm module".
Definition wasm_br : bytes := list_byte_of_string "brotli stream".
Definition wasm_gz : bytes := list_byte_of_string "gzip stream".

(** A site with the module and both precompressed siblings. *)
Definition full : Env :=
  env (at_ "/game.wasm" (File wasm 1767225600)
       ++ at_ "/game.wasm.br" (File wasm_br 1767225600)
       ++ at_ "/game.wasm.gz" (File wasm_gz 1767225600)).

(** The siblings without the module they were made from. *)
Definition siblings_only : Env :=
  env (at_ "/game.wasm.br" (File wasm_br 1767225600)
       ++ at_ "/game.wasm.gz" (File wasm_gz 1767225600)).

(** The module alone. *)
Definition plain : Env := env (at_ "/game.wasm" (File wasm 1767225600)).

(** Nothing at all. *)
Definition empty : Env := env [].

(** A directory [d] that holds two files named [?.wasm.br] and
    [?.wasm.gz] and nothing else, and the same directory once they are
    deleted. *)
Definition listed : Env :=
  env (at_ "/d/" (Dir (Some ["?.wasm.br"; "?.wasm.gz"]))
       ++ at_ "/d/?.wasm.br" (File wasm_br 1767225600)
       ++ at_ "/d/?.wasm.gz" (File wasm_gz 1767225600)).

Definition unlisted : Env := env (at_ "/d/" (Dir (Some []))).

Definition GET (path : string) (headers : list (string * string)) : request :=
  Request "GET" path headers.

(** The module, asked for plainly; asked for by a client that holds a
    copy dated after the file; asked for by a client that lists gzip
    before brotli. *)
Definition get_module : request := GET "/game.wasm" [].

Definition revalidate_module : request :=
  GET "/game.wasm" [("If-Modified-Since", "Fri, 01 Jan 2027 00:00:00 GMT")].

Definition get_module_compressed : request :=
  GET "/game.wasm" [("Accept-Encoding", "gzip, br")].

End Site.

(** ** What the properties speak of *)

(** How a method leaves the handler: [preserves] and [establishes] look
    at the handler whether the method returned or raised. *)
Section Judgments.
Context {A : Type}.

Definition preserves (I : handler -> Prop) (m : M handler A) : Prop :=
  forall h, I h -> I (snd (m h)).

Definition establishes (I : handler -> Prop) (m : M handler A) : Prop :=
  forall h, I (snd (m h)).

Definition quiet (m : M handler A) : Prop :=
  forall h, returned (fst (m h)) = true.

(** [answers I m]: the method fails before it has done anything, with an
    exception the standard library lets through, or it returns and has
    established [I]. *)
Definition answers (I : handler -> Prop) (m : M handler A) : Prop :=
  forall h,
    (exists e, m h = (Raised e, h) /\ (e = ValueError \/ e = UnicodeEncodeError))
    \/ (returned (fst (m h)) = true /\ I (snd (m h))).
End Judgments.

(** Both cross-origin isolation headers were written to the client. *)
Definition isolated (h : handler) : Prop :=
  ("Cross-Origin-Opener-Policy", "same-origin") ∈ headers_written (wfile h)
  /\ ("Cross-Origin-Embedder-Policy", "require-corp") ∈ headers_written (wfile h).

(** No [Content-Encoding] header is buffered or written. *)
Definition unencoded (h : handler) : Prop :=
  (forall v, HeaderLine "Content-Encoding" v ∉ headers_buffer h)
  /\ (forall v, ("Content-Encoding", v) ∉ headers_written (wfile h)).

(** The names of the headers the inherited methods and [end_headers] send. *)
Definition fallback_names : list string :=
  [ "Server"; "Date"; "Connection"; "Content-Type"; "Content-Length";
    "Content-type"; "Last-Modified"; "Location";
    "Cross-Origin-Opener-Policy"; "Cross-Origin-Embedder-Policy"; "Cache-Control" ].

Definition not_an_encoding (l : line) : Prop :=
  forall v, l <> HeaderLine "Content-Encoding" v.

(** The response to [GET] carries [Content-Encoding: encoding]: the branch
    of that encoding was taken. *)
Definition encoded_as (env : Env) (req : request) (encoding : string) : Prop :=
  ("Content-Encoding", encoding)
    ∈ headers_written (wfile (snd (UltraFastHandler.do_GET env req fresh))).

(** [token] occurs in [s] as a substring. *)
Definition occurs_in (token s : string) : Prop :=
  exists before after, s = before +:+ token +:+ after.

(** A branch taken exactly when its token occurs in the header and its
    sibling exists, whatever the other branch does. *)
Definition token_alone_decides (env : Env) (req : request) (token sibling : string) : Prop :=
  encoded_as env req token
  <-> Str.endswith (path req) ".wasm" = true
      /\ occurs_in token (accept_encoding req)
      /\ Os.exists_ env sibling = true.

(** The names the inherited [send_head] asks the file system about: what
    the request path resolves to, and the index files it looks for when
    that is a directory. *)
Definition fallback_reads (env : Env) (req : request) : list string :=
  [ translate_path env (path req);
    Os.join (translate_path env (path req)) "index.html";
    Os.join (translate_path env (path req)) "index.htm" ].

(** Precompressed siblings, where present, are regular files. *)
Definition siblings_are_files (env : Env) (req : request) : Prop :=
  Os.isdir env (brotli_path req) = false /\ Os.isdir env (gzip_path req) = false.

(** What the inherited [do_GET] answers for a regular file of type
    [application/wasm] that has to be sent. *)
Definition raw_response (env : Env) (content : bytes) (mtime : Z) : response :=
  Response 200
    [ ("Server", version_string env);
      ("Date", date_time_string env None);
      ("Content-type", "application/wasm");
      ("Content-Length", pretty (length content));
      ("Last-Modified", date_time_string env (Some mtime));
      ("Cross-Origin-Opener-Policy", "same-origin");
      ("Cross-Origin-Embedder-Policy", "require-corp");
      ("Cache-Control", "public, max-age=31536000, immutable") ]
    content.

(** The raw module served: the bytes of the file the path resolves to,
    typed [application/wasm], not encoded, cacheable for a year.  This is
    what the specification promises for every [.wasm] request without
    sibling files. *)
Definition serves_raw_module (env : Env) (req : request) : Prop :=
  exists r content mtime,
    fs env (translate_path env (path req)) = Some (File content mtime)
    /\ answer (UltraFastHandler.do_GET env req) = (Returned tt, Some r)
    /\ body r = content
    /\ header_values r "Content-Type" = ["application/wasm"]
    /\ header_values r "Content-Encoding" = []
    /\ header_values r "Cache-Control" = ["public, max-age=31536000, immutable"].

(** ** What the patchers add

    The pairs of a hard-coded list whose key the section lacks, as the
    entries the loop appends and as the lines it prints. *)

Definition absent_from (deps : list (string * json)) (pair : string * string) : bool :=
  match Py.dict_get deps (fst pair) with
  | Some _ => false
  | None => true
  end.

Definition new_entries (deps : list (string * json)) (pairs : list (string * string))
  : list (string * json) :=
  map (fun pair => (fst pair, JStr (snd pair))) (List.filter (absent_from deps) pairs).

Definition added_lines (deps : list (string * json)) (pairs : list (string * string))
  : list string :=
  map (fun pair => "Added " +:+ fst pair +:+ ": " +:+ snd pair)
      (List.filter (absent_from deps) pairs).

(** The manifest with its dependencies section replaced. *)
Definition with_section (items : list (string * json)) (deps : list (string * json)) : json :=
  JDict (Py.dict_set items "dependencies" (JDict deps)).

Definition is_object (doc : json) : bool :=
  match doc with JDict _ => true | _ => false end.

(** A manifest the patchers are meant for: an object whose dependencies
    section, when there is one, is an object. *)
Definition manifest (doc : json) : Prop :=
  exists items,
    doc = JDict items
    /\ (Py.dict_get items "dependencies" = None
        \/ exists deps, Py.dict_get items "dependencies" = Some (JDict deps)).

(** The entries a hard-coded list stands for. *)
Definition entries (pairs : list (string * string)) : list (string * json) :=
  map (fun pair => (fst pair, JStr (snd pair))) pairs.

(** The version a hard-coded list gives for a key. *)
Fixpoint listed (pairs : list (string * string)) (key : string) : option string :=
  match pairs with
  | [] => None
  | (dep, version) :: rest => if String.eqb dep key then Some version else listed rest key
  end.

(** [doc'] is [doc], or [doc] with another value under the key
    [dependencies]: every other key of the object has its value and its
    place, and [dependencies] has its place, or the last one if it is new. *)
Definition only_section_differs (doc doc' : json) : Prop :=
  doc' = doc
  \/ exists items section,
       doc = JDict items /\ doc' = JDict (Py.dict_set items "dependencies" section).

(** How a loop of a patcher can end, from the document it started on. *)
Definition loop_end (package : json) (o : outcome json) : Prop :=
  match o with
  | Returned package' => only_section_differs package package'
  | Raised e =>
      e = TypeError
      \/ e = KeyError "dependencies"
         /\ exists items, package = JDict items /\ Py.dict_get items "dependencies" = None
  end.

(** ** The course of a response

    A response is written in three steps: the status line opens it, header
    lines follow it into the buffer, and [end_headers] closes the head and
    sends it; what is written after that is the body. *)

Section Course.
Context {A : Type}.

(** From a handler in [P], the method leaves one in [Q]. *)
Definition leads (P : handler -> Prop) (m : M handler A) (Q : handler -> Prop) : Prop :=
  forall h, P h -> Q (snd (m h)).

(** From a handler in [P], the method fails before it has done anything,
    with an exception the standard library lets through, or it returns
    and leaves a handler in [Q]. *)
Definition reaches (P : handler -> Prop) (m : M handler A) (Q : handler -> Prop) : Prop :=
  forall h, P h ->
    (exists e, m h = (Raised e, h) /\ (e = ValueError \/ e = UnicodeEncodeError))
    \/ (returned (fst (m h)) = true /\ Q (snd (m h))).
End Course.

(** The names of the headers and the status codes the inherited methods
    send on their own. *)
Definition inherited_names : list string :=
  [ "Server"; "Date"; "Connection"; "Content-Type"; "Content-Length";
    "Content-type"; "Last-Modified"; "Location" ].

Definition inherited_codes : list Z := [200; 301; 304; 404; 501].

(** What [end_headers] puts at the end of every head: lines 49 to 54. *)
Definition closing_headers (req : request) : list (string * string) :=
  [ ("Cross-Origin-Opener-Policy", "same-origin");
    ("Cross-Origin-Embedder-Policy", "require-corp") ]
  ++ (if Str.endswith (path req) ".wasm"
      then [ ("Cache-Control", "public, max-age=31536000, immutable") ]
      else []).

Definition header_line (kv : string * string) : line := HeaderLine (fst kv) (snd kv).

(** A response as it goes to the client. *)
Definition written (version message : string) (r : response) : list item :=
  map Line (StatusLine version (status r) message
            :: map header_line (header_lines r) ++ [BlankLine])
  ++ map Octet (body r).

(** Before the response: nothing buffered, nothing written. *)
Definition untouched (h : handler) : Prop :=
  headers_buffer h = [] /\ wfile h = [].

(** The head is open: a status line and headers named in [names] are
    buffered and nothing is written. *)
Definition opened (names : list string) (h : handler) : Prop :=
  wfile h = []
  /\ exists version code message hs,
       headers_buffer h = StatusLine version code message :: map header_line hs
       /\ code ∈ inherited_codes
       /\ Forall (fun kv => fst kv ∈ names) hs.

(** The response is out: one head, whose headers are some named in
    [names] followed by those of [end_headers], and a body in [B];
    nothing is left in the buffer. *)
Definition answered (names : list string) (req : request) (B : bytes -> Prop)
    (h : handler) : Prop :=
  headers_buffer h = []
  /\ exists version message r hs,
       wfile h = written version message r
       /\ status r ∈ inherited_codes
       /\ header_lines r = hs ++ closing_headers req
       /\ Forall (fun kv => fst kv ∈ names) hs
       /\ B (body r).

(** The values of the header [name] among [hs]. *)
Definition values_of (hs : list (string * string)) (name : string) : list string :=
  map snd (filter (fun kv => String.eqb (Str.lower (fst kv)) (Str.lower name) = true) hs).

(** [do_GET] takes a compressed branch. *)
Definition compressed (env : Env) (req : request) : bool :=
  Str.endswith (path req) ".wasm" && (brotli_offered env req || gzip_offered env req).

(** The sibling of the branch taken, and its encoding. *)
Definition sibling_taken (env : Env) (req : request) : string :=
  if brotli_offered env req then brotli_path req else gzip_path req.

Definition encoding_taken (env : Env) (req : request) : string :=
  if brotli_offered env req then "br" else "gzip".

(** The reason phrase [send_response] finds for a code. *)
Definition reason (env : Env) (code : Z) : string :=
  match responses env code with Some (short, _) => short | None => "" end.

(** What can be read of a file: its content, or nothing. *)
Definition content_of (env : Env) (p : string) : bytes :=
  match fs env p with Some (File content _) => content | _ => [] end.

(** The request gets no response: the inherited [send_head] raised before
    anything was written. *)
Definition unanswered (env : Env) (req : request) : Prop :=
  exists e,
    UltraFastHandler.handle env req fresh = (Raised e, fresh)
    /\ (e = ValueError \/ e = UnicodeEncodeError).

(** The inherited [send_head] raises: the path resolves to a directory and
    [urlsplit] refuses the request path, or to a directory to be listed
    whose listing cannot be encoded, or to a string that is no file name. *)
Definition refused (env : Env) (req : request) : bool :=
  let p := translate_path env (path req) in
  if Os.isdir env p then
    match urlsplit_path env (path req) with
    | None => true
    | Some parts_path =>
        Str.endswith parts_path "/"
        && negb (Os.isfile env (Os.join p "index.html"))
        && negb (Os.isfile env (Os.join p "index.htm"))
        && match fs env p with
           | Some (Dir (Some list)) =>
               match listing_body env (path req) p list with
               | None => true
               | Some _ => false
               end
           | _ => false
           end
    end
  else
    negb (Str.endswith p "/")
    && match fs env p with Some Invalid => true | _ => false end.

(** * Properties *)

(** ** Strings *)

Lemma startswith_spec (s p : string) :
  Str.startswith s p = true <-> exists rest, s = p +:+ rest.
Proof.
  revert s. induction p as [|c p IH]; intros s.
  - destruct s; (split; [intros _; by eexists | done]).
  - destruct s as [|d s]; simpl.
    + split; [done | intros [rest H]; discriminate].
    + rewrite andb_true_iff, Ascii.eqb_eq, IH.
      split; [intros [-> [rest ->]]; by exists rest | intros [rest [= -> ->]]; eauto].
Qed.

Lemma contains_here (token rest : string) :
  Str.contains token (token +:+ rest) = true.
Proof.
  assert (Str.startswith (token +:+ rest) token = true) as H
    by (apply startswith_spec; by exists rest).
  revert H. generalize (token +:+ rest).
  intros [|d s] H; cbn [Str.contains]; by rewrite H.
Qed.

Lemma contains_spec (token s : string) :
  Str.contains token s = true <-> occurs_in token s.
Proof.
  unfold occurs_in. split.
  - induction s as [|c s IH]; cbn [Str.contains]; rewrite orb_true_iff.
    + intros [H|H]; [|done]. apply startswith_spec in H as [rest ->]. by exists "", rest.
    + intros [H|H].
      * apply startswith_spec in H as [rest ->]. by exists "", rest.
      * destruct (IH H) as (b & a & ->). by exists (String c b), a.
  - intros (b & a & ->). induction b as [|c b IH].
    + exact (contains_here token a).
    + change (Str.startswith (String c b +:+ token +:+ a) token
              || Str.contains token (b +:+ token +:+ a) = true).
      rewrite IH. apply orb_true_r.
Qed.

Lemma endswith_spec (s suffix : string) :
  Str.endswith s suffix = true <-> exists stem, s = stem +:+ suffix.
Proof.
  split.
  - induction s as [|c s IH].
    + destruct suffix; [by exists "" | done].
    + change (String.eqb (String c s) suffix || Str.endswith s suffix = true -> 
              exists stem, String c s = stem +:+ suffix).
      rewrite orb_true_iff. intros [H|H].
      * apply String.eqb_eq in H as <-. by exists "".
      * destruct (IH H) as [stem ->]. by exists (String c stem).
  - intros [stem ->]. induction stem as [|c stem IH].
    + destruct suffix; simpl; [done|]. by rewrite Ascii.eqb_refl, String.eqb_refl.
    + change (String.eqb (String c stem +:+ suffix) suffix
              || Str.endswith (stem +:+ suffix) suffix = true).
      rewrite IH. apply orb_true_r.
Qed.

(** The string operations on a few inputs, with the values Python gives. *)

Example endswith_module : Str.endswith "/game.wasm" ".wasm" = true.
Proof. reflexivity. Qed.

Example endswith_sibling : Str.endswith "/game.wasm.br" ".wasm" = false.
Proof. reflexivity. Qed.

Example contains_inside_a_word : Str.contains "br" "vibrant" = true.
Proof. reflexivity. Qed.

Example contains_is_case_sensitive : Str.contains "br" "BR, GZIP" = false.
Proof. reflexivity. Qed.

Example contains_nothing_in_empty : Str.contains "gzip" "" = false.
Proof. reflexivity. Qed.

Example splitext_module : Os.splitext "/srv/www/game.wasm" = ("/srv/www/game", ".wasm").
Proof. reflexivity. Qed.

Example splitext_leading_dot : Os.splitext "/srv/www/.wasm" = ("/srv/www/.wasm", "").
Proof. reflexivity. Qed.

Example splitext_dot_in_directory : Os.splitext "/srv/www.d/game" = ("/srv/www.d/game", "").
Proof. reflexivity. Qed.

Example headers_get_ignores_case :
  Headers.get [("accept-encoding", "gzip")] "Accept-Encoding" "" = "gzip".
Proof. reflexivity. Qed.

(** ** Rules for the judgments *)

Section Rules.
Context {A B : Type} (I : handler -> Prop).
Implicit Types (m : M handler A) (k : A -> M handler B).

Lemma preserves_ret (a : A) : preserves I (ret a).
Proof. by intros h. Qed.

Lemma preserves_raise (e : exn) : preserves I (raise e : M handler A).
Proof. by intros h. Qed.

Lemma preserves_bind m k :
  preserves I m -> (forall a, preserves I (k a)) -> preserves I (bind m k).
Proof.
  intros Hm Hk h Hh. specialize (Hm h Hh). unfold bind.
  destruct (m h) as [[a|e] h']; simpl in *; [by apply Hk | done].
Qed.

Lemma establishes_bind_l m k :
  establishes I m -> (forall a, preserves I (k a)) -> establishes I (bind m k).
Proof.
  intros Hm Hk h. specialize (Hm h). unfold bind.
  destruct (m h) as [[a|e] h']; simpl in *; [by apply Hk | done].
Qed.

Lemma establishes_bind_r m k :
  quiet m -> (forall a, establishes I (k a)) -> establishes I (bind m k).
Proof.
  intros Hm Hk h. specialize (Hm h). unfold bind.
  destruct (m h) as [[a|e] h']; simpl in *; [by apply Hk | done].
Qed.

Lemma quiet_ret (a : A) : quiet (ret a : M handler A).
Proof. by intros h. Qed.

Lemma quiet_modify (f : handler -> handler) : quiet (modify f).
Proof. by intros h. Qed.

Lemma quiet_bind m k :
  quiet m -> (forall a, quiet (k a)) -> quiet (bind m k).
Proof.
  intros Hm Hk h. specialize (Hm h). unfold bind.
  destruct (m h) as [[a|e] h']; simpl in *; [by apply Hk | done].
Qed.

Lemma answers_raise (e : exn) :
  e = ValueError \/ e = UnicodeEncodeError -> answers I (raise e : M handler A).
Proof. intros He h. left. by exists e. Qed.

Lemma answers_quiet m : quiet m -> establishes I m -> answers I m.
Proof. intros Hquiet Hm h. right. split; [apply Hquiet | apply Hm]. Qed.

Lemma answers_bind m k :
  answers I m -> (forall a, quiet (k a)) -> (forall a, preserves I (k a)) ->
  answers I (bind m k).
Proof.
  intros Hm Hquiet Hk h. unfold bind.
  destruct (Hm h) as [(e & -> & He)|[Hreturned HI]]; [left; by exists e|].
  right. destruct (m h) as [[a|e] h']; simpl in *; [|done].
  split; [apply Hquiet | by apply Hk].
Qed.
End Rules.

Create HintDb handler discriminated.
#[local] Hint Resolve preserves_ret preserves_raise quiet_ret quiet_modify : handler.

(** A chain of binds, one link at a time; a link that tests something is
    split into its cases. *)
Ltac links rule :=
  repeat first
    [ progress intros
    | solve [eauto with handler]
    | apply rule
    | case_match ].

(** ** The header lines that reach the client *)

Lemma headers_written_app (w1 w2 : list item) :
  headers_written (w1 ++ w2) = headers_written w1 ++ headers_written w2.
Proof.
  induction w1 as [|[[v c m|k v|]|b] w1 IH]; simpl; by rewrite ?IH.
Qed.

Lemma headers_written_octets (data : bytes) :
  headers_written (map Octet data) = [].
Proof. by induction data. Qed.

Lemma headers_written_lines (ls : list line) (k v : string) :
  (k, v) ∈ headers_written (map Line ls) <-> HeaderLine k v ∈ ls.
Proof.
  induction ls as [|l ls IH]; simpl.
  - by rewrite !elem_of_nil.
  - destruct l; simpl; rewrite ?elem_of_cons, IH; intuition congruence.
Qed.

(** ** The inherited methods keep what was sent

    [I] is kept by the four steps that change a handler; [allowed] are the
    lines it lets into the buffer. *)

Section Preservation.
Variable I : handler -> Prop.
Variable allowed : line -> Prop.
Hypothesis I_buffer : forall l, allowed l -> preserves I (buffer_line l).
Hypothesis I_close : forall b, preserves I (set_close_connection b).
Hypothesis I_write : forall data, preserves I (wfile_write data).
Hypothesis I_flush : preserves I BaseHTTPRequestHandler.flush_headers.
Hypothesis allowed_status : forall v c m, allowed (StatusLine v c m).
Hypothesis allowed_blank : allowed BlankLine.
Hypothesis allowed_header : forall k v, k ∈ fallback_names -> allowed (HeaderLine k v).

Variable env : Env.
Variable req : request.

Lemma preserves_send_header (k v : string) :
  k ∈ fallback_names -> preserves I (BaseHTTPRequestHandler.send_header k v).
Proof.
  intros Hk. unfold BaseHTTPRequestHandler.send_header.
  apply preserves_bind; [by apply I_buffer, allowed_header |].
  intros _. repeat case_match; auto using preserves_ret.
Qed.

#[local] Hint Extern 1 (preserves _ (BaseHTTPRequestHandler.send_header _ _)) =>
  apply preserves_send_header; set_solver : handler.

Lemma preserves_send_response (code : Z) (message : option string) :
  preserves I (BaseHTTPRequestHandler.send_response env code message).
Proof.
  unfold BaseHTTPRequestHandler.send_response, BaseHTTPRequestHandler.send_response_only.
  apply preserves_bind; [by apply I_buffer, allowed_status |].
  links @preserves_bind.
Qed.

Lemma preserves_base_end_headers : preserves I BaseHTTPRequestHandler.end_headers.
Proof.
  unfold BaseHTTPRequestHandler.end_headers.
  apply preserves_bind; [by apply I_buffer | by intros _].
Qed.

#[local] Hint Resolve preserves_send_response preserves_base_end_headers I_write : handler.

Lemma preserves_end_headers : preserves I (UltraFastHandler.end_headers req).
Proof. unfold UltraFastHandler.end_headers. links @preserves_bind. Qed.

Section Inherited.
Variable self_end_headers : M handler unit.
Hypothesis preserves_self : preserves I self_end_headers.

#[local] Hint Resolve preserves_self : handler.

Lemma preserves_send_error (code : Z) (message : option string) :
  preserves I (BaseHTTPRequestHandler.send_error env req self_end_headers code message).
Proof. unfold BaseHTTPRequestHandler.send_error. links @preserves_bind. Qed.

#[local] Hint Resolve preserves_send_error : handler.

Lemma preserves_list_directory (path : string) :
  preserves I (SimpleHTTPRequestHandler.list_directory env req self_end_headers path).
Proof. unfold SimpleHTTPRequestHandler.list_directory. links @preserves_bind. Qed.

Lemma preserves_send_file (table : gmap string string) (path : string) :
  preserves I (SimpleHTTPRequestHandler.send_file env req self_end_headers table path).
Proof. unfold SimpleHTTPRequestHandler.send_file. links @preserves_bind. Qed.

#[local] Hint Resolve preserves_list_directory preserves_send_file : handler.

Lemma preserves_send_head (table : gmap string string) :
  preserves I (SimpleHTTPRequestHandler.send_head env req self_end_headers table).
Proof. unfold SimpleHTTPRequestHandler.send_head. links @preserves_bind. Qed.

#[local] Hint Resolve preserves_send_head : handler.

Lemma preserves_do_GET (table : gmap string string) :
  preserves I (SimpleHTTPRequestHandler.do_GET env req self_end_headers table).
Proof. unfold SimpleHTTPRequestHandler.do_GET. links @preserves_bind. Qed.

Lemma preserves_do_HEAD (table : gmap string string) :
  preserves I (SimpleHTTPRequestHandler.do_HEAD env req self_end_headers table).
Proof. unfold SimpleHTTPRequestHandler.do_HEAD. links @preserves_bind. Qed.
End Inherited.

Lemma preserves_raw_fallback : preserves I (raw_fallback env req).
Proof. apply preserves_do_GET, preserves_end_headers. Qed.
End Preservation.

(** ** The inherited methods never raise *)

Lemma quiet_buffer_line (l : line) : quiet (buffer_line l).
Proof. apply quiet_modify. Qed.

Lemma quiet_set_close_connection (b : bool) : quiet (set_close_connection b).
Proof. apply quiet_modify. Qed.

Lemma quiet_wfile_write (data : bytes) : quiet (wfile_write data).
Proof. apply quiet_modify. Qed.

Lemma quiet_flush_headers : quiet BaseHTTPRequestHandler.flush_headers.
Proof. apply quiet_modify. Qed.

#[local] Hint Resolve quiet_buffer_line quiet_set_close_connection
  quiet_wfile_write quiet_flush_headers : handler.

Lemma quiet_send_header (k v : string) : quiet (BaseHTTPRequestHandler.send_header k v).
Proof. unfold BaseHTTPRequestHandler.send_header. links @quiet_bind. Qed.

#[local] Hint Resolve quiet_send_header : handler.

Lemma quiet_send_response (env : Env) (code : Z) (message : option string) :
  quiet (BaseHTTPRequestHandler.send_response env code message).
Proof.
  unfold BaseHTTPRequestHandler.send_response, BaseHTTPRequestHandler.send_response_only.
  links @quiet_bind.
Qed.

Lemma quiet_base_end_headers : quiet BaseHTTPRequestHandler.end_headers.
Proof. unfold BaseHTTPRequestHandler.end_headers. links @quiet_bind. Qed.

#[local] Hint Resolve quiet_send_response quiet_base_end_headers : handler.

Lemma quiet_end_headers (req : request) : quiet (UltraFastHandler.end_headers req).
Proof. unfold UltraFastHandler.end_headers. links @quiet_bind. Qed.

Section QuietInherited.
Variable env : Env.
Variable req : request.
Variable self_end_headers : M handler unit.
Hypothesis quiet_self : quiet self_end_headers.

#[local] Hint Resolve quiet_self : handler.

Lemma quiet_send_error (code : Z) (message : option string) :
  quiet (BaseHTTPRequestHandler.send_error env req self_end_headers code message).
Proof. unfold BaseHTTPRequestHandler.send_error. links @quiet_bind. Qed.

#[local] Hint Resolve quiet_send_error : handler.
End QuietInherited.

(** ** Every inherited path ends its headers, or never starts

    A path through an inherited method either stops before the first
    [send_response], where the standard library raises on a path it
    cannot process, or calls [self.end_headers], with nothing before it
    that could raise and only writes of the body after it: then what
    [self.end_headers] establishes and a write keeps holds when the method
    is over. *)

Ltac ends_headers :=
  repeat first
    [ progress intros
    | solve [eauto with handler]
    | apply establishes_bind_l;
        [ solve [eauto with handler] | intros; solve [links @preserves_bind] ]
    | apply establishes_bind_r; [ solve [links @quiet_bind] | ]
    | case_match ].

(** The cases of a method that can stop early: a case that raises, a
    case that is another such method, or a case that goes through. *)
Ltac delegates :=
  repeat first
    [ progress intros
    | solve [eauto with handler]
    | apply answers_raise; solve [by left | by right]
    | case_match
    | apply answers_quiet; [ solve [links @quiet_bind] | solve [ends_headers] ] ].

Section Establishing.
Variable I : handler -> Prop.
Hypothesis I_write : forall data, preserves I (wfile_write data).

Variable env : Env.
Variable req : request.
Variable self_end_headers : M handler unit.
Hypothesis establishes_self : establishes I self_end_headers.
Hypothesis quiet_self : quiet self_end_headers.

#[local] Hint Resolve establishes_self quiet_self I_write : handler.
#[local] Hint Resolve quiet_send_error : handler.

Lemma establishes_send_error (code : Z) (message : option string) :
  establishes I (BaseHTTPRequestHandler.send_error env req self_end_headers code message).
Proof. unfold BaseHTTPRequestHandler.send_error. ends_headers. Qed.

#[local] Hint Resolve establishes_send_error : handler.

Lemma answers_list_directory (path : string) :
  answers I (SimpleHTTPRequestHandler.list_directory env req self_end_headers path).
Proof. unfold SimpleHTTPRequestHandler.list_directory. delegates. Qed.

Lemma answers_send_file (table : gmap string string) (path : string) :
  answers I (SimpleHTTPRequestHandler.send_file env req self_end_headers table path).
Proof. unfold SimpleHTTPRequestHandler.send_file. delegates. Qed.

#[local] Hint Resolve answers_list_directory answers_send_file : handler.

Lemma answers_send_head (table : gmap string string) :
  answers I (SimpleHTTPRequestHandler.send_head env req self_end_headers table).
Proof. unfold SimpleHTTPRequestHandler.send_head. delegates. Qed.

Lemma answers_do_GET (table : gmap string string) :
  answers I (SimpleHTTPRequestHandler.do_GET env req self_end_headers table).
Proof.
  unfold SimpleHTTPRequestHandler.do_GET.
  apply answers_bind; [apply answers_send_head | |];
    intros [content|]; auto with handler.
Qed.

Lemma answers_do_HEAD (table : gmap string string) :
  answers I (SimpleHTTPRequestHandler.do_HEAD env req self_end_headers table).
Proof.
  unfold SimpleHTTPRequestHandler.do_HEAD.
  apply answers_bind; [apply answers_send_head | |]; auto with handler.
Qed.
End Establishing.

(** ** Running a method

    [run] unfolds the monad and the header steps, so that a method applied
    to a handler computes as far as its tests allow. *)

Ltac run :=
  cbv beta iota zeta delta
    [ bind ret raise modify lift get
      buffer_line set_close_connection wfile_write
      BaseHTTPRequestHandler.send_response_only BaseHTTPRequestHandler.send_header
      BaseHTTPRequestHandler.send_response BaseHTTPRequestHandler.flush_headers
      BaseHTTPRequestHandler.end_headers BaseHTTPRequestHandler.protocol_version
      BaseHTTPRequestHandler.error_content_type ];
  simpl.

(** ** Cross-origin isolation *)

Lemma end_headers_run (req : request) (h : handler) :
  UltraFastHandler.end_headers req h =
  (Returned tt,
   Handler []
     (wfile h ++ map Line
        (headers_buffer h
         ++ [ HeaderLine "Cross-Origin-Opener-Policy" "same-origin";
              HeaderLine "Cross-Origin-Embedder-Policy" "require-corp" ]
         ++ (if Str.endswith (path req) ".wasm"
             then [ HeaderLine "Cache-Control" "public, max-age=31536000, immutable" ]
             else [])
         ++ [ BlankLine ]))
     (close_connection h)).
Proof.
  unfold UltraFastHandler.end_headers. destruct h as [buffer w cc].
  destruct (Str.endswith (path req) ".wasm"); run; by rewrite <- ?app_assoc.
Qed.

Lemma isolated_grows (h h' : handler) (w : list item) :
  wfile h' = wfile h ++ w -> isolated h -> isolated h'.
Proof.
  unfold isolated. intros -> [H1 H2].
  rewrite headers_written_app, !elem_of_app. auto.
Qed.

Lemma isolated_buffer (l : line) : preserves isolated (buffer_line l).
Proof. by intros h. Qed.

Lemma isolated_close (b : bool) : preserves isolated (set_close_connection b).
Proof. by intros h. Qed.

Lemma isolated_write (data : bytes) : preserves isolated (wfile_write data).
Proof. intros h. by apply isolated_grows with (map Octet data). Qed.

Lemma isolated_flush : preserves isolated BaseHTTPRequestHandler.flush_headers.
Proof. intros h. by apply isolated_grows with (map Line (headers_buffer h)). Qed.

Lemma isolated_end_headers (req : request) :
  establishes isolated (UltraFastHandler.end_headers req).
Proof.
  intros h. rewrite end_headers_run. unfold isolated. simpl.
  rewrite headers_written_app, !elem_of_app, !headers_written_lines, !elem_of_app.
  rewrite !elem_of_cons. tauto.
Qed.

Lemma preserves_read (I : handler -> Prop) (env : Env) (p : string) :
  preserves I (Os.read env p).
Proof. unfold Os.read. repeat case_match; auto using preserves_ret, preserves_raise. Qed.

Lemma do_GET_run (env : Env) (req : request) (h : handler) :
  UltraFastHandler.do_GET env req h =
  if Str.endswith (path req) ".wasm" && brotli_offered env req then
    serve_compressed env req "br" (path req +:+ ".br") h
  else if Str.endswith (path req) ".wasm" && gzip_offered env req then
    serve_compressed env req "gzip" (path req +:+ ".gz") h
  else raw_fallback env req h.
Proof.
  unfold UltraFastHandler.do_GET, serve_compressed, brotli_offered, gzip_offered,
    raw_fallback, accept_encoding, brotli_path, gzip_path,
    UltraFastHandler.end_headers, Os.read.
  destruct (Str.endswith (path req) ".wasm"); simpl; [|done].
  destruct (Str.contains "br" _ && Os.exists_ env _).
  { by destruct (fs env ("." +:+ path req +:+ ".br")) as [[content mtime|listing|]|]. }
  destruct (Str.contains "gzip" _ && Os.exists_ env _); [|done].
  by destruct (fs env ("." +:+ path req +:+ ".gz")) as [[content mtime|listing|]|].
Qed.

Section Isolation.
Variable env : Env.
Variable req : request.

Lemma isolated_serve_compressed (encoding sibling : string) :
  establishes isolated (serve_compressed env req encoding sibling).
Proof.
  unfold serve_compressed.
  do 4 (apply establishes_bind_r; [auto with handler | intros _]).
  apply establishes_bind_l; [apply isolated_end_headers | intros _].
  apply preserves_bind; [apply preserves_read | intros; apply isolated_write].
Qed.

Lemma isolated_raw_fallback : answers isolated (raw_fallback env req).
Proof.
  apply answers_do_GET;
    auto using isolated_write, isolated_end_headers, quiet_end_headers.
Qed.

(** From a fresh handler: the method established [I], or nothing was
    written and it raised. *)
Lemma answers_fresh {A : Type} (I : handler -> Prop) (m : M handler A) :
  answers I m ->
  I (snd (m fresh))
  \/ (wfile (snd (m fresh)) = []
      /\ exists e, fst (m fresh) = Raised e /\ (e = ValueError \/ e = UnicodeEncodeError)).
Proof.
  intros Hm. destruct (Hm fresh) as [(e & -> & He)|[_ HI]]; [right | by left].
  split; [done|]. by exists e.
Qed.

Lemma isolated_handle :
  isolated (snd (UltraFastHandler.handle env req fresh))
  \/ (wfile (snd (UltraFastHandler.handle env req fresh)) = []
      /\ exists e, fst (UltraFastHandler.handle env req fresh) = Raised e
                   /\ (e = ValueError \/ e = UnicodeEncodeError)).
Proof.
  unfold UltraFastHandler.handle. repeat case_match.
  - rewrite do_GET_run.
    repeat case_match;
      first [ left; apply isolated_serve_compressed
            | apply answers_fresh, isolated_raw_fallback ].
  - apply answers_fresh, answers_do_HEAD;
      auto using isolated_write, isolated_end_headers, quiet_end_headers.
  - left. apply establishes_send_error;
      auto using isolated_write, isolated_end_headers, quiet_end_headers.
Qed.
End Isolation.

(** C1, as the code has it.  Whatever the method, the path and the
    Accept-Encoding header of a request, if anything at all is written to
    the client then the response carries
    [Cross-Origin-Opener-Policy: same-origin] and
    [Cross-Origin-Embedder-Policy: require-corp]; so it does when a
    compressed branch raises after its headers went out.  The other case
    is a request that gets no response: the inherited [send_head] raised
    [ValueError] or [UnicodeEncodeError] before the first octet. *)
Theorem every_response_is_cross_origin_isolated (env : Env) (req : request) :
  let h := snd (UltraFastHandler.handle env req fresh) in
  (("Cross-Origin-Opener-Policy", "same-origin") ∈ headers_written (wfile h)
   /\ ("Cross-Origin-Embedder-Policy", "require-corp") ∈ headers_written (wfile h))
  \/ (wfile h = []
      /\ exists e, fst (UltraFastHandler.handle env req fresh) = Raised e
                   /\ (e = ValueError \/ e = UnicodeEncodeError)).
Proof. apply isolated_handle. Qed.

(** The promise of C1 fails on a request the standard library cannot
    process.  The path of [GET /a%00b] resolves to a name with an embedded
    NUL: [os.path.isdir] answers [False] for it and [open] raises
    [ValueError], which [send_head] does not catch.  Nothing is written to
    the client, so no header is. *)
Lemma a_refused_path_gets_no_response :
  Str.unquote "/a%00b" = String "/" (String "a" (String "000" "b"))
  /\ UltraFastHandler.handle Site.plain (Site.GET "/a%00b" []) fresh
     = (Raised ValueError, fresh)
  /\ headers_written
       (wfile (snd (UltraFastHandler.handle Site.plain (Site.GET "/a%00b" []) fresh)))
     = [].
Proof. repeat split; reflexivity. Qed.

(** ** The compressed branches *)

Lemma read_body_octets (data : bytes) : read_body (map Octet data) = Some data.
Proof. induction data as [|b data IH]; simpl; by rewrite ?IH. Qed.

Lemma serve_compressed_answer (env : Env) (req : request)
    (encoding sibling : string) (content : bytes) (mtime : Z) :
  Str.endswith (path req) ".wasm" = true ->
  fs env ("." +:+ sibling) = Some (File content mtime) ->
  answer (serve_compressed env req encoding sibling)
  = (Returned tt, Some (compressed_response env encoding content)).
Proof.
  intros Hwasm Hfile.
  unfold answer, serve_compressed, UltraFastHandler.end_headers, Os.read.
  rewrite Hwasm, Hfile. run. rewrite read_body_octets. reflexivity.
Qed.

Lemma answer_do_GET (env : Env) (req : request) :
  answer (UltraFastHandler.do_GET env req) =
  if Str.endswith (path req) ".wasm" && brotli_offered env req then
    answer (serve_compressed env req "br" (path req +:+ ".br"))
  else if Str.endswith (path req) ".wasm" && gzip_offered env req then
    answer (serve_compressed env req "gzip" (path req +:+ ".gz"))
  else answer (raw_fallback env req).
Proof.
  unfold answer. rewrite do_GET_run.
  destruct (Str.endswith (path req) ".wasm" && brotli_offered env req); [done|].
  by destruct (Str.endswith (path req) ".wasm" && gzip_offered env req).
Qed.

Lemma exists_file (env : Env) (p : string) (content : bytes) (mtime : Z) :
  fs env p = Some (File content mtime) -> Os.exists_ env p = true.
Proof. unfold Os.exists_. by intros ->. Qed.

(** C2.  A request for a [.wasm] path whose Accept-Encoding holds both
    tokens, with both sibling files on disk, is answered 200 with the bytes
    of the [.br] sibling and [Content-Encoding: br]. *)
Theorem brotli_preferred_over_gzip (env : Env) (req : request)
    (br gz : bytes) (mtime_br mtime_gz : Z) :
  Str.endswith (path req) ".wasm" = true ->
  Str.contains "br" (accept_encoding req) = true ->
  Str.contains "gzip" (accept_encoding req) = true ->
  fs env (brotli_path req) = Some (File br mtime_br) ->
  fs env (gzip_path req) = Some (File gz mtime_gz) ->
  answer (UltraFastHandler.do_GET env req)
  = (Returned tt, Some (compressed_response env "br" br)).
Proof.
  intros Hwasm Hbr _ Hfile _.
  rewrite answer_do_GET. unfold brotli_offered.
  rewrite Hwasm, Hbr, (exists_file _ _ _ _ Hfile). simpl.
  by apply serve_compressed_answer with mtime_br.
Qed.

Lemma brotli_preferred_over_gzip_witness :
  answer (UltraFastHandler.do_GET Site.full
            (Site.GET "/game.wasm" [("Accept-Encoding", "gzip, deflate, br")]))
  = (Returned tt, Some (compressed_response Site.full "br" Site.wasm_br)).
Proof.
  apply (brotli_preferred_over_gzip Site.full
           (Site.GET "/game.wasm" [("Accept-Encoding", "gzip, deflate, br")])
           Site.wasm_br Site.wasm_gz 1767225600 1767225600);
    reflexivity.
Defined.

(** C3.  With the gzip token but without the brotli token in
    Accept-Encoding, and both sibling files on disk, the answer is 200 with
    the bytes of the [.gz] sibling and [Content-Encoding: gzip]. *)
Theorem gzip_when_brotli_not_accepted (env : Env) (req : request)
    (br gz : bytes) (mtime_br mtime_gz : Z) :
  Str.endswith (path req) ".wasm" = true ->
  Str.contains "gzip" (accept_encoding req) = true ->
  Str.contains "br" (accept_encoding req) = false ->
  fs env (brotli_path req) = Some (File br mtime_br) ->
  fs env (gzip_path req) = Some (File gz mtime_gz) ->
  answer (UltraFastHandler.do_GET env req)
  = (Returned tt, Some (compressed_response env "gzip" gz)).
Proof.
  intros Hwasm Hgzip Hbr _ Hfile.
  rewrite answer_do_GET. unfold brotli_offered, gzip_offered.
  rewrite Hwasm, Hbr, Hgzip, (exists_file _ _ _ _ Hfile). simpl.
  by apply serve_compressed_answer with mtime_gz.
Qed.

Lemma gzip_when_brotli_not_accepted_witness :
  answer (UltraFastHandler.do_GET Site.full
            (Site.GET "/game.wasm" [("Accept-Encoding", "gzip, deflate")]))
  = (Returned tt, Some (compressed_response Site.full "gzip" Site.wasm_gz)).
Proof.
  apply (gzip_when_brotli_not_accepted Site.full
           (Site.GET "/game.wasm" [("Accept-Encoding", "gzip, deflate")])
           Site.wasm_br Site.wasm_gz 1767225600 1767225600);
    reflexivity.
Defined.



(** ** The fall-back *)

Lemma do_GET_falls_back (env : Env) (req : request) (h : handler) :
  falls_back env req = true ->
  UltraFastHandler.do_GET env req h = raw_fallback env req h.
Proof.
  unfold falls_back. rewrite do_GET_run, negb_true_iff, andb_false_iff, orb_false_iff.
  intros [->|[-> ->]]; [done|]. by rewrite !andb_false_r.
Qed.

Lemma not_offered_without_token (env : Env) (req : request) :
  accept_encoding req = "" -> brotli_offered env req = false /\ gzip_offered env req = false.
Proof. unfold brotli_offered, gzip_offered. by intros ->. Qed.

Lemma not_offered_without_siblings (env : Env) (req : request) :
  Os.exists_ env (brotli_path req) = false ->
  Os.exists_ env (gzip_path req) = false ->
  brotli_offered env req = false /\ gzip_offered env req = false.
Proof. unfold brotli_offered, gzip_offered. intros -> ->. by rewrite !andb_false_r. Qed.

Lemma send_error_run (env : Env) (req : request) (code : Z) (message : string) :
  200 <= code -> code ∉ [204; 205; 304] ->
  exists (h : handler) (r : response),
    BaseHTTPRequestHandler.send_error env req (UltraFastHandler.end_headers req)
      code (Some message) fresh = (Returned tt, h)
    /\ response_of (wfile h) = Some r
    /\ status r = code.
Proof.
  intros Hcode Hbody.
  unfold BaseHTTPRequestHandler.send_error, UltraFastHandler.end_headers.
  rewrite (proj2 (Z.leb_le 200 code) Hcode), bool_decide_eq_false_2 by done.
  destruct (responses env code) as [[short long]|];
    destruct (error_body env code _ _) as [|b data];
    destruct (String.eqb (command req) "HEAD");
    destruct (Str.endswith (path req) ".wasm");
    run; (do 2 eexists); (split; [reflexivity|]);
    simpl; rewrite ?read_body_octets; split; reflexivity.
Qed.

(** C7, as the code has it.  When a request reaches the fall-back and
    the path it resolves to is a name the operating system accepts at
    which nothing exists, [do_GET] returns without raising and the
    response has status 404. *)
Theorem missing_file_is_not_found (env : Env) (req : request) :
  falls_back env req = true ->
  fs env (translate_path env (path req)) = None ->
  exists r : response,
    answer (UltraFastHandler.do_GET env req) = (Returned tt, Some r)
    /\ status r = 404.
Proof.
  intros Hfb Hfs. unfold answer. rewrite do_GET_falls_back by done.
  unfold raw_fallback, SimpleHTTPRequestHandler.do_GET, SimpleHTTPRequestHandler.send_head,
    SimpleHTTPRequestHandler.self_path, Os.isdir.
  rewrite Hfs. unfold SimpleHTTPRequestHandler.send_file. rewrite Hfs.
  destruct (send_error_run env req 404 "File not found") as (h & r & Hrun & Hr & Hstatus);
    [lia | rewrite !elem_of_cons, elem_of_nil; lia |].
  exists r. split; [|done].
  destruct (Str.endswith (translate_path env (path req)) "/");
    unfold bind; rewrite Hrun; simpl; by rewrite Hr.
Qed.

Lemma missing_file_is_not_found_witness :
  exists r : response,
    answer (UltraFastHandler.do_GET Site.plain (Site.GET "/missing.html" []))
    = (Returned tt, Some r)
    /\ status r = 404.
Proof.
  apply (missing_file_is_not_found Site.plain (Site.GET "/missing.html" []));
    reflexivity.
Defined.

(** The promise of C7 fails where the resolved path is no file name at
    all.  [GET /a%00b] reaches the fall-back and resolves to a name with
    an embedded NUL, at which no file exists; the inherited [send_head]
    does not answer 404 but lets the [ValueError] of [open] through, and
    the client gets nothing. *)
Lemma missing_file_can_be_a_fault :
  falls_back Site.plain (Site.GET "/a%00b" []) = true
  /\ Os.exists_ Site.plain (translate_path Site.plain (path (Site.GET "/a%00b" []))) = false
  /\ answer (UltraFastHandler.do_GET Site.plain (Site.GET "/a%00b" []))
     = (Raised ValueError, None).
Proof. repeat split; reflexivity. Qed.

(** ** The raw module *)

Lemma substring_whole (s : string) : String.substring 0 (String.length s) s = s.
Proof. induction s as [|c s IH]; simpl; by rewrite ?IH. Qed.

Lemma substring_is_suffix (s : string) (n : nat) :
  exists stem, s = stem +:+ String.substring n (String.length s - n) s.
Proof.
  revert n. induction s as [|c s IH]; intros n.
  - exists "". by destruct n.
  - destruct n as [|n].
    + exists "". by rewrite Nat.sub_0_r, substring_whole.
    + destruct (IH n) as [stem Hstem]. exists (String c stem).
      simpl. by rewrite Hstem at 1.
Qed.

Lemma app_cons (c : ascii) (a b : string) : String c a +:+ b = String c (a +:+ b).
Proof. reflexivity. Qed.

Lemma app_last_char (a b : string) (c d : ascii) :
  a +:+ String c "" = b +:+ String d "" -> c = d.
Proof.
  revert b. induction a as [|x a IH]; intros [|y b]; rewrite ?app_cons; intros [= ]; subst.
  - done.
  - by destruct b.
  - by destruct a.
  - eauto.
Qed.

Lemma app_assoc_string (a b c : string) : (a +:+ b) +:+ c = a +:+ b +:+ c.
Proof. induction a as [|x a IH]; [done|]. by rewrite !app_cons, IH. Qed.

(** A name whose extension is [.wasm] does not end in a slash. *)
Lemma wasm_extension_no_slash (p : string) :
  snd (Os.splitext p) = ".wasm" -> Str.endswith p "/" = false.
Proof.
  unfold Os.splitext. case_match; [|done]. simpl. unfold Str.slice_from.
  intros Hext.
  destruct (substring_is_suffix p (Z.to_nat (Str.rfind "." p))) as [stem Hp].
  rewrite Hext in Hp.
  destruct (Str.endswith p "/") eqn:Hslash; [|done].
  apply endswith_spec in Hslash as [stem' Hp'].
  rewrite Hp' in Hp.
  change ".wasm" with (".was" +:+ "m") in Hp.
  rewrite <- app_assoc_string in Hp.
  by apply app_last_char in Hp.
Qed.

Lemma guess_type_wasm (env : Env) (p : string) :
  snd (Os.splitext p) = ".wasm" ->
  SimpleHTTPRequestHandler.guess_type (registered_types env) p = "application/wasm".
Proof.
  intros Hext. unfold SimpleHTTPRequestHandler.guess_type. rewrite Hext.
  change (SimpleHTTPRequestHandler.extensions_map !! ".wasm") with (@None string).
  change (Str.lower ".wasm") with ".wasm".
  change (SimpleHTTPRequestHandler.extensions_map !! ".wasm") with (@None string).
  unfold registered_types, add_type. by rewrite lookup_insert_eq.
Qed.

(** C4, as the code has it.  A request for a [.wasm] path without sibling
    files is answered 200 with the bytes of the file the path resolves to,
    [Content-type: application/wasm], no [Content-Encoding] and the
    immutable [Cache-Control], provided the path resolves to a regular
    file whose extension is [.wasm] and the request is not answered
    [304 Not Modified]. *)
Theorem raw_module_when_no_sibling (env : Env) (req : request)
    (content : bytes) (mtime : Z) :
  Str.endswith (path req) ".wasm" = true ->
  Os.exists_ env (brotli_path req) = false ->
  Os.exists_ env (gzip_path req) = false ->
  fs env (translate_path env (path req)) = Some (File content mtime) ->
  snd (Os.splitext (translate_path env (path req))) = ".wasm" ->
  SimpleHTTPRequestHandler.not_modified env req mtime = false ->
  answer (UltraFastHandler.do_GET env req)
  = (Returned tt, Some (raw_response env content mtime))
  /\ header_values (raw_response env content mtime) "Content-Type" = ["application/wasm"]
  /\ header_values (raw_response env content mtime) "Content-Encoding" = []
  /\ header_values (raw_response env content mtime) "Cache-Control"
     = ["public, max-age=31536000, immutable"].
Proof.
  intros Hwasm Hbr Hgz Hfile Hext Hfresh.
  split; [|by repeat split].
  assert (falls_back env req = true) as Hfb.
  { unfold falls_back.
    destruct (not_offered_without_siblings env req Hbr Hgz) as [-> ->].
    by rewrite andb_false_r. }
  unfold answer. rewrite do_GET_falls_back by done.
  unfold raw_fallback, SimpleHTTPRequestHandler.do_GET, SimpleHTTPRequestHandler.send_head,
    SimpleHTTPRequestHandler.self_path, Os.isdir.
  rewrite Hfile. unfold SimpleHTTPRequestHandler.send_file.
  rewrite (wasm_extension_no_slash _ Hext), Hfile, Hfresh, (guess_type_wasm _ _ Hext).
  unfold UltraFastHandler.end_headers. rewrite Hwasm.
  run. by rewrite read_body_octets.
Qed.

Lemma raw_module_when_no_sibling_witness :
  answer (UltraFastHandler.do_GET Site.plain (Site.GET "/game.wasm" [("Accept-Encoding", "br")]))
  = (Returned tt, Some (raw_response Site.plain Site.wasm 1767225600)).
Proof.
  apply (raw_module_when_no_sibling Site.plain
           (Site.GET "/game.wasm" [("Accept-Encoding", "br")]) Site.wasm 1767225600);
    reflexivity.
Defined.

(** The promise of C4 fails on the code: a [.wasm] request without sibling
    files is answered 404 with an HTML page when nothing is at the path,
    and 304 without a type or a body when the client's copy is current. *)
Lemma raw_module_not_always_served :
  (Str.endswith (path Site.get_module) ".wasm" = true
   /\ Os.exists_ Site.empty (brotli_path Site.get_module) = false
   /\ Os.exists_ Site.empty (gzip_path Site.get_module) = false
   /\ (exists r : response,
         answer (UltraFastHandler.do_GET Site.empty Site.get_module) = (Returned tt, Some r)
         /\ status r = 404
         /\ header_values r "Content-Type" = ["text/html;charset=utf-8"]
         /\ header_values r "Cache-Control" = ["public, max-age=31536000, immutable"])
   /\ ~ serves_raw_module Site.empty Site.get_module)
  /\ (Str.endswith (path Site.revalidate_module) ".wasm" = true
   /\ Os.exists_ Site.plain (brotli_path Site.revalidate_module) = false
   /\ Os.exists_ Site.plain (gzip_path Site.revalidate_module) = false
   /\ fs Site.plain (translate_path Site.plain (path Site.revalidate_module))
      = Some (File Site.wasm 1767225600)
   /\ (exists r : response,
         answer (UltraFastHandler.do_GET Site.plain Site.revalidate_module)
         = (Returned tt, Some r)
         /\ status r = 304
         /\ header_values r "Content-Type" = []
         /\ body r = [])
   /\ ~ serves_raw_module Site.plain Site.revalidate_module).
Proof.
  split.
  - do 3 (split; [reflexivity|]). split.
    + eexists. split; [reflexivity|]. by repeat split.
    + intros (r & content & mtime & Hfile & _). discriminate Hfile.
  - do 4 (split; [reflexivity|]). split.
    + eexists. split; [reflexivity|]. by repeat split.
    + intros (r & content & mtime & _ & Hanswer & _ & Htype & _).
      vm_compute in Hanswer. injection Hanswer as <-. discriminate Htype.
Qed.

(** ** The fall-back and the siblings

    With nothing in Accept-Encoding the siblings are never looked at: what
    is served is what the inherited [send_head] reads. *)

Section Reads.
Variable env : Env.
Variable files : string -> option node.
Variable req : request.
Variable self_end_headers : M handler unit.

Lemma send_file_reads (table : gmap string string) (p : string) (h : handler) :
  files p = fs env p ->
  SimpleHTTPRequestHandler.send_file (with_fs env files) req self_end_headers table p h
  = SimpleHTTPRequestHandler.send_file env req self_end_headers table p h.
Proof.
  intros Hp. unfold SimpleHTTPRequestHandler.send_file. cbn [fs with_fs]. by rewrite Hp.
Qed.

Lemma list_directory_reads (p : string) (h : handler) :
  files p = fs env p ->
  SimpleHTTPRequestHandler.list_directory (with_fs env files) req self_end_headers p h
  = SimpleHTTPRequestHandler.list_directory env req self_end_headers p h.
Proof.
  intros Hp. unfold SimpleHTTPRequestHandler.list_directory. cbn [fs with_fs].
  by rewrite Hp.
Qed.

Lemma send_head_reads (table : gmap string string) (h : handler) :
  (forall p, p ∈ fallback_reads env req -> files p = fs env p) ->
  SimpleHTTPRequestHandler.send_head (with_fs env files) req self_end_headers table h
  = SimpleHTTPRequestHandler.send_head env req self_end_headers table h.
Proof.
  intros Hreads.
  assert (files (translate_path env (path req)) = fs env (translate_path env (path req)))
    as Hpath by (apply Hreads; unfold fallback_reads; by repeat constructor).
  assert (files (Os.join (translate_path env (path req)) "index.html")
          = fs env (Os.join (translate_path env (path req)) "index.html"))
    as Hhtml by (apply Hreads; unfold fallback_reads; by repeat constructor).
  assert (files (Os.join (translate_path env (path req)) "index.htm")
          = fs env (Os.join (translate_path env (path req)) "index.htm"))
    as Hhtm by (apply Hreads; unfold fallback_reads; by repeat constructor).
  unfold SimpleHTTPRequestHandler.send_head, SimpleHTTPRequestHandler.self_path,
    Os.isdir, Os.isfile.
  cbn [fs translate_path urlsplit_path with_fs].
  rewrite Hpath, Hhtml, Hhtm.
  repeat case_match; try reflexivity;
    first [ apply send_file_reads; congruence | apply list_directory_reads; congruence ].
Qed.
End Reads.

Lemma raw_fallback_reads (env : Env) (files : string -> option node) (req : request)
    (h : handler) :
  (forall p, p ∈ fallback_reads env req -> files p = fs env p) ->
  raw_fallback (with_fs env files) req h = raw_fallback env req h.
Proof.
  intros Hreads. unfold raw_fallback, SimpleHTTPRequestHandler.do_GET, bind.
  change (registered_types (with_fs env files)) with (registered_types env).
  by rewrite send_head_reads.
Qed.

(** The fall-back on a path that resolves to a module. *)
Lemma fallback_serves_the_module (env : Env) (req : request)
    (content : bytes) (mtime : Z) :
  falls_back env req = true ->
  Str.endswith (path req) ".wasm" = true ->
  fs env (translate_path env (path req)) = Some (File content mtime) ->
  snd (Os.splitext (translate_path env (path req))) = ".wasm" ->
  SimpleHTTPRequestHandler.not_modified env req mtime = false ->
  answer (UltraFastHandler.do_GET env req)
  = (Returned tt, Some (raw_response env content mtime)).
Proof.
  intros Hfb Hwasm Hfile Hext Hfresh.
  unfold answer. rewrite do_GET_falls_back by done.
  unfold raw_fallback, SimpleHTTPRequestHandler.do_GET, SimpleHTTPRequestHandler.send_head,
    SimpleHTTPRequestHandler.self_path, Os.isdir.
  rewrite Hfile. unfold SimpleHTTPRequestHandler.send_file.
  rewrite (wasm_extension_no_slash _ Hext), Hfile, Hfresh, (guess_type_wasm _ _ Hext).
  unfold UltraFastHandler.end_headers. rewrite Hwasm.
  run. by rewrite read_body_octets.
Qed.




(** ** Which encoding the response declares *)

Lemma unencoded_buffer (l : line) :
  not_an_encoding l -> preserves unencoded (buffer_line l).
Proof.
  intros Hl h [Hbuffer Hwritten]. split; [|done]. simpl.
  intros v. rewrite elem_of_app, list_elem_of_singleton.
  intros [H|H]; [by apply (Hbuffer v) | by apply (Hl v)].
Qed.

Lemma unencoded_close (b : bool) : preserves unencoded (set_close_connection b).
Proof. by intros h. Qed.

Lemma unencoded_write (data : bytes) : preserves unencoded (wfile_write data).
Proof.
  intros h [Hbuffer Hwritten]. split; [done|]. simpl.
  intros v. rewrite headers_written_app, headers_written_octets, app_nil_r.
  apply Hwritten.
Qed.

Lemma unencoded_flush : preserves unencoded BaseHTTPRequestHandler.flush_headers.
Proof.
  intros h [Hbuffer Hwritten]. split; simpl.
  - intros v. apply not_elem_of_nil.
  - intros v. rewrite headers_written_app, elem_of_app, headers_written_lines.
    intros [H|H]; [by apply (Hwritten v) | by apply (Hbuffer v)].
Qed.

Lemma fallback_names_not_an_encoding (k v : string) :
  k ∈ fallback_names -> not_an_encoding (HeaderLine k v).
Proof.
  unfold fallback_names. rewrite !elem_of_cons, elem_of_nil.
  intros Hk v' [= -> _]. intuition discriminate.
Qed.

Lemma unencoded_fresh : unencoded fresh.
Proof. split; intros v; apply not_elem_of_nil. Qed.

Lemma unencoded_raw_fallback (env : Env) (req : request) :
  unencoded (snd (raw_fallback env req fresh)).
Proof.
  apply (preserves_raw_fallback unencoded not_an_encoding);
    auto using unencoded_buffer, unencoded_close, unencoded_write, unencoded_flush,
      fallback_names_not_an_encoding, unencoded_fresh;
    by intros.
Qed.

Lemma serve_compressed_headers (env : Env) (req : request) (encoding sibling : string) :
  Str.endswith (path req) ".wasm" = true ->
  headers_written
    (wfile (snd (serve_compressed env req encoding sibling fresh)))
  = header_lines (compressed_response env encoding []).
Proof.
  intros Hwasm.
  unfold serve_compressed, UltraFastHandler.end_headers, Os.read.
  rewrite Hwasm.
  destruct (fs env ("." +:+ sibling)) as [[content mtime|listing|]|];
    run; by rewrite ?headers_written_octets.
Qed.

Lemma declared_encoding (env : Env) (encoding e : string) :
  ("Content-Encoding", e) ∈ header_lines (compressed_response env encoding [])
  <-> e = encoding.
Proof.
  simpl. rewrite !elem_of_cons, elem_of_nil.
  split; [|intros ->; tauto].
  intros H. repeat (destruct H as [H|H]; [by simplify_eq|]). done.
Qed.

(** The response declares an encoding exactly in the branch of that
    encoding; the gzip branch is an [elif]. *)
Lemma encoded_as_spec (env : Env) (req : request) (e : string) :
  encoded_as env req e
  <-> Str.endswith (path req) ".wasm" = true
      /\ (brotli_offered env req = true /\ e = "br"
          \/ brotli_offered env req = false /\ gzip_offered env req = true /\ e = "gzip").
Proof.
  unfold encoded_as. rewrite do_GET_run.
  destruct (Str.endswith (path req) ".wasm") eqn:Hwasm; simpl.
  - destruct (brotli_offered env req); [|destruct (gzip_offered env req)].
    + rewrite serve_compressed_headers, declared_encoding by done. intuition congruence.
    + rewrite serve_compressed_headers, declared_encoding by done. intuition congruence.
    + split; [|intuition congruence].
      intros H. by apply (proj2 (unencoded_raw_fallback env req)) in H.
  - split; [|intuition congruence].
    intros H. by apply (proj2 (unencoded_raw_fallback env req)) in H.
Qed.

Lemma offered_spec (env : Env) (token accept sibling : string) :
  Str.contains token accept && Os.exists_ env sibling = true
  <-> occurs_in token accept /\ Os.exists_ env sibling = true.
Proof. by rewrite andb_true_iff, contains_spec. Qed.

(** C6, as the code has it.  Each test is plain substring containment on
    the raw header value, with no parsing of q-values and no regard to
    order: the brotli branch is taken exactly when [br] occurs in the header
    and the [.br] sibling exists; the gzip branch exactly when [gzip]
    occurs in the header, the [.gz] sibling exists and the brotli branch is
    not taken. *)
Theorem encoding_chosen_by_substring (env : Env) (req : request) :
  token_alone_decides env req "br" (brotli_path req)
  /\ (encoded_as env req "gzip"
      <-> (Str.endswith (path req) ".wasm" = true
           /\ occurs_in "gzip" (accept_encoding req)
           /\ Os.exists_ env (gzip_path req) = true)
          /\ ~ encoded_as env req "br").
Proof.
  unfold token_alone_decides. rewrite !encoded_as_spec.
  pose proof (offered_spec env "br" (accept_encoding req) (brotli_path req)) as Hbr.
  pose proof (offered_spec env "gzip" (accept_encoding req) (gzip_path req)) as Hgz.
  fold (brotli_offered env req) in Hbr. fold (gzip_offered env req) in Hgz.
  destruct (brotli_offered env req), (gzip_offered env req); intuition congruence.
Qed.

(** The promise of C6 fails for gzip: with [gzip, br] in Accept-Encoding
    and both siblings on disk, the gzip token occurs in the header and the
    [.gz] sibling exists, yet the response is the brotli one. *)
Lemma gzip_token_alone_does_not_decide :
  occurs_in "gzip" (accept_encoding Site.get_module_compressed)
  /\ Os.exists_ Site.full (gzip_path Site.get_module_compressed) = true
  /\ encoded_as Site.full Site.get_module_compressed "br"
  /\ ~ encoded_as Site.full Site.get_module_compressed "gzip"
  /\ ~ token_alone_decides Site.full Site.get_module_compressed "gzip"
         (gzip_path Site.get_module_compressed).
Proof.
  assert (occurs_in "gzip" (accept_encoding Site.get_module_compressed)) as Hoccurs
    by (by apply contains_spec).
  assert (~ encoded_as Site.full Site.get_module_compressed "gzip") as Hnot.
  { rewrite encoded_as_spec. intros [_ [[_ [=]]|[[=] _]]]. }
  split; [done|]. split; [done|]. split; [|split; [done|]].
  - apply encoded_as_spec. split; [done|]. by left.
  - intros [_ Hdecides]. apply Hnot, Hdecides. by repeat split.
Qed.

(** ** The manifest patchers *)

Lemma dict_get_set_same (items : list (string * json)) (key : string) (value : json) :
  Py.dict_get (Py.dict_set items key value) key = Some value.
Proof.
  induction items as [|[k v] items IH]; simpl.
  - by rewrite String.eqb_refl.
  - destruct (String.eqb k key) eqn:E; simpl; by rewrite E.
Qed.

Lemma dict_get_set_other (items : list (string * json)) (k key : string) (value : json) :
  k <> key ->
  Py.dict_get (Py.dict_set items k value) key = Py.dict_get items key.
Proof.
  intros Hne. induction items as [|[k' v] items IH]; simpl.
  - by rewrite (proj2 (String.eqb_neq k key) Hne).
  - destruct (String.eqb k' k) eqn:E; simpl.
    + apply String.eqb_eq in E as ->.
      by rewrite (proj2 (String.eqb_neq k key) Hne).
    + by rewrite IH.
Qed.

Lemma bind_returned {S A B : Type} (m : M S A) (k : A -> M S B) (s s' : S) (a : A) :
  m s = (Returned a, s') -> bind m k s = k a s'.
Proof. unfold bind. by intros ->. Qed.

(** [package['dependencies'][dep] = version] on a manifest that has its
    section, for a [dep] the section lacks: the section is still there and
    no recorded version changed. *)
Lemma setitem_at_spec (package : json) (deps : list (string * json))
    (dep : string) (value : json) :
  dependencies_of package = Some deps ->
  Py.dict_get deps dep = None ->
  exists (package' : json) (deps' : list (string * json)),
    Py.setitem_at package "dependencies" dep value = Returned package'
    /\ dependencies_of package' = Some deps'
    /\ (forall key v, Py.dict_get deps key = Some v -> Py.dict_get deps' key = Some v).
Proof.
  unfold dependencies_of. intros Hdeps Hdep.
  destruct package as [| | | | | |items]; try done.
  destruct (Py.dict_get items "dependencies") as [[| | | | | |deps0]|] eqn:Hsection; try done.
  injection Hdeps as ->.
  eexists _, (Py.dict_set deps dep value).
  unfold Py.setitem_at. simpl. rewrite Hsection. simpl.
  split; [reflexivity|]. cbv beta iota. rewrite dict_get_set_same.
  split; [done|].
  intros key v Hkey. rewrite dict_get_set_other; [done|].
  intros ->. congruence.
Qed.

(** The test of the loop, [dep not in package['dependencies']], on a
    manifest that has its section. *)
Lemma section_test (package : json) (deps : list (string * json)) (dep : string) :
  dependencies_of package = Some deps ->
  Py.getitem package "dependencies" = Returned (JDict deps)
  /\ Py.contains dep (JDict deps) = Returned (bool_decide (is_Some (Py.dict_get deps dep))).
Proof.
  unfold dependencies_of. intros Hdeps.
  destruct package as [| | | | | |items]; try done.
  simpl. destruct (Py.dict_get items "dependencies") as [[| | | | | |deps0]|]; try done.
  by injection Hdeps as ->.
Qed.

(** One turn of either loop on a manifest that has its section: the turn
    goes on with the manifest as it was, or with one in which the section
    is still there and no recorded version changed, after a line is
    printed.  [added] and [kept] are what the script does next. *)
Lemma loop_turn {B : Type} (package : json) (deps : list (string * json))
    (dep version : string) (added : json -> M script B) (kept : M script B)
    (s : script) :
  dependencies_of package = Some deps ->
  exists (package' : json) (deps' : list (string * json)) (s' : script),
    dependencies_of package' = Some deps'
    /\ (forall key v, Py.dict_get deps key = Some v -> Py.dict_get deps' key = Some v)
    /\ package_json s' = package_json s
    /\ writes s' = writes s
    /\ ((deps <- lift (Py.getitem package "dependencies") ;;
         present <- lift (Py.contains dep deps) ;;
         if negb present then
           package <- lift (Py.setitem_at package "dependencies" dep (JStr version)) ;;
           print ("Added " +:+ dep +:+ ": " +:+ version) ;;
           added package
         else kept) s = kept s
        \/ (deps <- lift (Py.getitem package "dependencies") ;;
            present <- lift (Py.contains dep deps) ;;
            if negb present then
              package <- lift (Py.setitem_at package "dependencies" dep (JStr version)) ;;
              print ("Added " +:+ dep +:+ ": " +:+ version) ;;
              added package
            else kept) s = added package' s').
Proof.
  intros Hdeps. destruct (section_test package deps dep Hdeps) as [Hget Hin].
  rewrite (bind_returned _ _ s s (JDict deps)) by (unfold lift; by rewrite Hget).
  rewrite (bind_returned _ _ s s (bool_decide (is_Some (Py.dict_get deps dep))))
    by (unfold lift; by rewrite Hin).
  case_bool_decide as Hdep; simpl.
  - exists package, deps, s. repeat (split; [done|]). by left.
  - assert (Py.dict_get deps dep = None) as Hnone
      by (destruct (Py.dict_get deps dep); [by destruct Hdep; eauto | done]).
    destruct (setitem_at_spec package deps dep (JStr version) Hdeps Hnone)
      as (package' & deps' & Hset & Hdeps' & Hkept).
    exists package', deps', (Script (package_json s)
                               (stdout s ++ ["Added " +:+ dep +:+ ": " +:+ version])
                               (writes s)).
    repeat (split; [done|]). right.
    rewrite (bind_returned _ _ s s package') by (unfold lift; by rewrite Hset).
    by erewrite (bind_returned (print _)) by reflexivity.
Qed.

(** The loop of [add_deps.py], on a manifest that has its section: it
    returns, the section is still there, no recorded version changed, and
    the file is not touched. *)
Lemma add_deps_loop (pairs : list (string * string)) (package : json)
    (deps : list (string * json)) (s : script) :
  dependencies_of package = Some deps ->
  exists (package' : json) (deps' : list (string * json)) (s' : script),
    for_each pairs package
      (fun package '(dep, version) =>
         deps <- lift (Py.getitem package "dependencies") ;;
         present <- lift (Py.contains dep deps) ;;
         if negb present then
           package <- lift (Py.setitem_at package "dependencies" dep (JStr version)) ;;
           print ("Added " +:+ dep +:+ ": " +:+ version) ;;
           ret package
         else ret package) s
    = (Returned package', s')
    /\ dependencies_of package' = Some deps'
    /\ (forall key v, Py.dict_get deps key = Some v -> Py.dict_get deps' key = Some v)
    /\ package_json s' = package_json s
    /\ writes s' = writes s.
Proof.
  revert package deps s.
  induction pairs as [|[dep version] pairs IH]; intros package deps s Hdeps.
  - by exists package, deps, s.
  - cbn [for_each].
    destruct (loop_turn package deps dep version ret (ret package) s Hdeps)
      as (package1 & deps1 & s1 & Hdeps1 & Hkept1 & Hfile1 & Hwrites1 & [Hturn|Hturn]).
    + destruct (IH package deps s Hdeps)
        as (package2 & deps2 & s2 & Hloop & Hdeps2 & Hkept2 & Hfile2 & Hwrites2).
      exists package2, deps2, s2.
      by rewrite (bind_returned _ _ _ _ _ Hturn).
    + destruct (IH package1 deps1 s1 Hdeps1)
        as (package2 & deps2 & s2 & Hloop & Hdeps2 & Hkept2 & Hfile2 & Hwrites2).
      exists package2, deps2, s2.
      rewrite (bind_returned _ _ _ _ _ Hturn).
      split; [done|]. split; [done|]. split; [auto|]. split; congruence.
Qed.

(** The loop of [add_all_deps.py], likewise. *)
Lemma add_all_deps_loop (pairs : list (string * string)) (package : json)
    (deps : list (string * json)) (count : nat) (s : script) :
  dependencies_of package = Some deps ->
  exists (package' : json) (deps' : list (string * json)) (count' : nat) (s' : script),
    for_each pairs (package, count)
      (fun '(package, added_count) '(dep, version) =>
         deps <- lift (Py.getitem package "dependencies") ;;
         present <- lift (Py.contains dep deps) ;;
         if negb present then
           package <- lift (Py.setitem_at package "dependencies" dep (JStr version)) ;;
           print ("Added " +:+ dep +:+ ": " +:+ version) ;;
           ret (package, S added_count)
         else ret (package, added_count)) s
    = (Returned (package', count'), s')
    /\ dependencies_of package' = Some deps'
    /\ (forall key v, Py.dict_get deps key = Some v -> Py.dict_get deps' key = Some v)
    /\ package_json s' = package_json s
    /\ writes s' = writes s.
Proof.
  revert package deps count s.
  induction pairs as [|[dep version] pairs IH]; intros package deps count s Hdeps.
  - by exists package, deps, count, s.
  - cbn [for_each].
    destruct (loop_turn package deps dep version
                (fun package => ret (package, S count)) (ret (package, count)) s Hdeps)
      as (package1 & deps1 & s1 & Hdeps1 & Hkept1 & Hfile1 & Hwrites1 & [Hturn|Hturn]).
    + destruct (IH package deps count s Hdeps)
        as (package2 & deps2 & count2 & s2 & Hloop & Hdeps2 & Hkept2 & Hfile2 & Hwrites2).
      exists package2, deps2, count2, s2.
      by rewrite (bind_returned _ _ _ _ _ Hturn).
    + destruct (IH package1 deps1 (S count) s1 Hdeps1)
        as (package2 & deps2 & count2 & s2 & Hloop & Hdeps2 & Hkept2 & Hfile2 & Hwrites2).
      exists package2, deps2, count2, s2.
      rewrite (bind_returned _ _ _ _ _ Hturn).
      split; [done|]. split; [done|]. split; [auto|]. split; congruence.
Qed.

Lemma dependency_version_kept (doc doc' : json) (deps deps' : list (string * json))
    (key : string) (version : json) :
  dependencies_of doc = Some deps ->
  dependencies_of doc' = Some deps' ->
  (forall key v, Py.dict_get deps key = Some v -> Py.dict_get deps' key = Some v) ->
  dependency_version doc key = Some version ->
  dependency_version doc' key = Some version.
Proof. unfold dependency_version. intros -> -> Hkept. apply Hkept. Qed.

Lemma add_deps_spec (doc : json) (deps : list (string * json)) :
  dependencies_of doc = Some deps ->
  exists (doc' : json) (deps' : list (string * json)) (out : list string),
    run AddDeps.main doc = (Returned tt, Script doc' out 1)
    /\ dependencies_of doc' = Some deps'
    /\ (forall key v, Py.dict_get deps key = Some v -> Py.dict_get deps' key = Some v).
Proof.
  intros Hdeps.
  destruct (add_deps_loop AddDeps.missing_deps doc deps (Script doc [] 0) Hdeps)
    as (doc' & deps' & [file out n] & Hloop & Hdeps' & Hkept & _ & Hwrites).
  simpl in Hwrites. subst n.
  exists doc', deps', (out ++ ["Dependencies updated!"]).
  split; [|done].
  assert (Py.contains "dependencies" doc = Returned true) as Hsection.
  { unfold dependencies_of in Hdeps. destruct doc as [| | | | | |items]; try done.
    simpl. destruct (Py.dict_get items "dependencies"); [|done].
    by rewrite bool_decide_eq_true_2 by eauto. }
  unfold run, AddDeps.main.
  rewrite (bind_returned json_load _ _ (Script doc [] 0) doc) by done.
  rewrite (bind_returned (lift _) _ _ (Script doc [] 0) true)
    by (unfold lift; by rewrite Hsection).
  rewrite (bind_returned (ret doc) _ _ (Script doc [] 0) doc) by done.
  by rewrite (bind_returned _ _ _ _ _ Hloop).
Qed.

Lemma add_all_deps_spec (doc : json) (deps : list (string * json)) :
  dependencies_of doc = Some deps ->
  exists (doc' : json) (deps' : list (string * json)) (out : list string) (n : nat),
    run AddAllDeps.main doc = (Returned tt, Script doc' out n)
    /\ dependencies_of doc' = Some deps'
    /\ (forall key v, Py.dict_get deps key = Some v -> Py.dict_get deps' key = Some v).
Proof.
  intros Hdeps.
  destruct (add_all_deps_loop AddAllDeps.all_deps doc deps 0%nat (Script doc [] 0) Hdeps)
    as (doc' & deps' & count & [file out n] & Hloop & Hdeps' & Hkept & Hfile & Hwrites).
  simpl in Hfile, Hwrites. subst file n.
  unfold run, AddAllDeps.main.
  rewrite (bind_returned json_load _ _ (Script doc [] 0) doc) by done.
  rewrite (bind_returned _ _ _ _ _ Hloop).
  destruct (0 <? count)%nat.
  - by exists doc', deps', (out ++ ["\nAdded " +:+ pretty count +:+ " dependencies!"]), 1%nat.
  - by exists doc, deps, (out ++ ["No new dependencies to add."]), 0%nat.
Qed.

(** C8.  A key present in the dependencies section of the manifest has the
    same version in the manifest either patcher leaves behind. *)
Theorem existing_versions_unchanged (doc : json) (key : string) (version : json) :
  dependency_version doc key = Some version ->
  (fst (run AddDeps.main doc) = Returned tt
   /\ dependency_version (package_json (snd (run AddDeps.main doc))) key = Some version)
  /\ (fst (run AddAllDeps.main doc) = Returned tt
      /\ dependency_version (package_json (snd (run AddAllDeps.main doc))) key = Some version).
Proof.
  intros Hkey.
  destruct (dependencies_of doc) as [deps|] eqn:Hdeps;
    [|by unfold dependency_version in Hkey; rewrite Hdeps in Hkey].
  split.
  - destruct (add_deps_spec doc deps Hdeps) as (doc' & deps' & out & -> & Hdeps' & Hkept).
    split; [done|]. by apply dependency_version_kept with doc deps deps'.
  - destruct (add_all_deps_spec doc deps Hdeps)
      as (doc' & deps' & out & n & -> & Hdeps' & Hkept).
    split; [done|]. by apply dependency_version_kept with doc deps deps'.
Qed.

Lemma existing_versions_unchanged_witness :
  dependency_version
    (package_json (snd (run AddDeps.main
       (JDict [("name", JStr "js-lua");
               ("dependencies", JDict [("express", JStr "^3.0.0")])]))))
    "express" = Some (JStr "^3.0.0")
  /\ dependency_version
       (package_json (snd (run AddAllDeps.main
          (JDict [("name", JStr "js-lua");
                  ("dependencies", JDict [("express", JStr "^3.0.0")])]))))
       "express" = Some (JStr "^3.0.0").
Proof.
  destruct (existing_versions_unchanged
              (JDict [("name", JStr "js-lua");
                      ("dependencies", JDict [("express", JStr "^3.0.0")])])
              "express" (JStr "^3.0.0") eq_refl) as [[_ H1] [_ H2]].
  split; [exact H1 | exact H2].
Defined.

(** C9.  On the manifest [{}], a valid document without a dependencies
    section, [add_deps.py] creates the section and completes, while
    [add_all_deps.py] raises [KeyError: 'dependencies'] at the first turn of
    its loop and leaves the file as it was. *)
Theorem add_all_deps_raises_without_section :
  run AddAllDeps.main (JDict []) = (Raised (KeyError "dependencies"), Script (JDict []) [] 0)
  /\ fst (run AddDeps.main (JDict [])) = Returned tt
  /\ dependencies_of (package_json (snd (run AddDeps.main (JDict []))))
     = Some (map (fun '(dep, version) => (dep, JStr version)) AddDeps.missing_deps).
Proof. by vm_compute. Qed.

(** * Further properties *)

(** ** The patchers: what exactly is written *)

Lemma dict_set_absent (items : list (string * json)) (key : string) (value : json) :
  Py.dict_get items key = None -> Py.dict_set items key value = items ++ [(key, value)].
Proof.
  induction items as [|[k v] items IH]; simpl; [done|].
  destruct (String.eqb k key); [done|]. intros H. by rewrite IH.
Qed.

Lemma dict_set_present (items : list (string * json)) (key : string) (value : json) :
  Py.dict_get items key = Some value -> Py.dict_set items key value = items.
Proof.
  induction items as [|[k v] items IH]; simpl; [done|].
  destruct (String.eqb k key) eqn:E; [by intros [= ->]|].
  intros H. by rewrite IH.
Qed.

Lemma dict_set_set (items : list (string * json)) (key : string) (v1 v2 : json) :
  Py.dict_set (Py.dict_set items key v1) key v2 = Py.dict_set items key v2.
Proof.
  induction items as [|[k v] items IH]; simpl.
  - by rewrite String.eqb_refl.
  - destruct (String.eqb k key) eqn:E; simpl; rewrite E; [done|]. by rewrite IH.
Qed.

Lemma dict_get_app_other (items : list (string * json)) (k key : string) (value : json) :
  k <> key -> Py.dict_get (items ++ [(k, value)]) key = Py.dict_get items key.
Proof.
  intros Hne. induction items as [|[k' v] items IH]; simpl.
  - by rewrite (proj2 (String.eqb_neq k key) Hne).
  - by rewrite IH.
Qed.

Lemma keys_dict_set_present (items : list (string * json)) (key : string) (value : json) :
  is_Some (Py.dict_get items key) ->
  map fst (Py.dict_set items key value) = map fst items.
Proof.
  induction items as [|[k v] items IH]; simpl; [by intros [? [=]]|].
  destruct (String.eqb k key) eqn:E; simpl; [done|]. intros H. by rewrite IH.
Qed.

(** One turn of either loop, exactly: on a manifest whose section is
    [deps], a key the section has is passed over, and a key it lacks goes
    to the end of the section, after which a line is printed. *)
Lemma loop_turn_exact {B : Type} (items deps : list (string * json))
    (dep version : string) (added : json -> M script B) (kept : M script B)
    (s : script) :
  (section <- lift (Py.getitem (with_section items deps) "dependencies") ;;
   present <- lift (Py.contains dep section) ;;
   if negb present then
     package <- lift (Py.setitem_at (with_section items deps) "dependencies" dep
                        (JStr version)) ;;
     print ("Added " +:+ dep +:+ ": " +:+ version) ;;
     added package
   else kept) s
  = if absent_from deps (dep, version)
    then added (with_section items (deps ++ [(dep, JStr version)]))
               (Script (package_json s)
                       (stdout s ++ ["Added " +:+ dep +:+ ": " +:+ version]) (writes s))
    else kept s.
Proof.
  unfold with_section, absent_from. simpl fst.
  rewrite (bind_returned _ _ s s (JDict deps))
    by (unfold lift; simpl; by rewrite dict_get_set_same).
  destruct (Py.dict_get deps dep) as [v|] eqn:Hdep.
  - by rewrite (bind_returned _ _ s s true)
      by (unfold lift; simpl; by rewrite Hdep, bool_decide_eq_true_2 by eauto).
  - rewrite (bind_returned _ _ s s false)
      by (unfold lift; simpl; by rewrite Hdep, bool_decide_eq_false_2 by (by intros [? [=]])).
    change (negb false) with true. cbv iota.
    rewrite (bind_returned _ _ s s
               (JDict (Py.dict_set items "dependencies"
                         (JDict (deps ++ [(dep, JStr version)])))));
      [by erewrite (bind_returned (print _)) by reflexivity|].
    unfold lift, Py.setitem_at. simpl. rewrite dict_get_set_same. simpl.
    by rewrite dict_set_set, (dict_set_absent deps dep) by done.
Qed.

Lemma absent_from_app (deps : list (string * json)) (dep : string) (value : json)
    (pairs : list (string * string)) :
  dep ∉ map fst pairs ->
  List.filter (absent_from (deps ++ [(dep, value)])) pairs
  = List.filter (absent_from deps) pairs.
Proof.
  induction pairs as [|[d v] pairs IH]; [done|].
  cbn [map fst]. rewrite not_elem_of_cons. intros [Hne Hnotin].
  cbn [List.filter]. rewrite IH by done.
  unfold absent_from. cbn [fst]. by rewrite dict_get_app_other.
Qed.

(** The loop of [add_deps.py], exactly. *)
Lemma add_deps_loop_exact (pairs : list (string * string))
    (items deps : list (string * json)) (s : script) :
  NoDup (map fst pairs) ->
  for_each pairs (with_section items deps)
    (fun package '(dep, version) =>
       deps <- lift (Py.getitem package "dependencies") ;;
       present <- lift (Py.contains dep deps) ;;
       if negb present then
         package <- lift (Py.setitem_at package "dependencies" dep (JStr version)) ;;
         print ("Added " +:+ dep +:+ ": " +:+ version) ;;
         ret package
       else ret package) s
  = (Returned (with_section items (deps ++ new_entries deps pairs)),
     Script (package_json s) (stdout s ++ added_lines deps pairs) (writes s)).
Proof.
  revert deps s. induction pairs as [|[dep version] pairs IH]; intros deps s Hnodup.
  - unfold new_entries, added_lines. simpl. rewrite !app_nil_r. by destruct s.
  - apply NoDup_cons in Hnodup as [Hnotin Hnodup].
    cbn [for_each].
    rewrite (bind_returned _ _ s
               (if absent_from deps (dep, version)
                then Script (package_json s)
                            (stdout s ++ ["Added " +:+ dep +:+ ": " +:+ version]) (writes s)
                else s)
               (if absent_from deps (dep, version)
                then with_section items (deps ++ [(dep, JStr version)])
                else with_section items deps)); cycle 1.
    { rewrite (loop_turn_exact items deps dep version ret
                 (ret (with_section items deps)) s).
      by destruct (absent_from deps (dep, version)). }
    unfold new_entries, added_lines. simpl List.filter.
    destruct (absent_from deps (dep, version)) eqn:Habsent.
    + rewrite IH by done. unfold new_entries, added_lines.
      rewrite absent_from_app by done. simpl.
      by rewrite <- !app_assoc.
    + by rewrite IH.
Qed.

(** The loop of [add_all_deps.py], exactly: the counter ends at the number
    of entries added. *)
Lemma add_all_deps_loop_exact (pairs : list (string * string))
    (items deps : list (string * json)) (count : nat) (s : script) :
  NoDup (map fst pairs) ->
  for_each pairs (with_section items deps, count)
    (fun '(package, added_count) '(dep, version) =>
       deps <- lift (Py.getitem package "dependencies") ;;
       present <- lift (Py.contains dep deps) ;;
       if negb present then
         package <- lift (Py.setitem_at package "dependencies" dep (JStr version)) ;;
         print ("Added " +:+ dep +:+ ": " +:+ version) ;;
         ret (package, S added_count)
       else ret (package, added_count)) s
  = (Returned (with_section items (deps ++ new_entries deps pairs),
               (count + length (new_entries deps pairs))%nat),
     Script (package_json s) (stdout s ++ added_lines deps pairs) (writes s)).
Proof.
  revert deps count s.
  induction pairs as [|[dep version] pairs IH]; intros deps count s Hnodup.
  - unfold new_entries, added_lines. simpl. rewrite !app_nil_r, Nat.add_0_r. by destruct s.
  - apply NoDup_cons in Hnodup as [Hnotin Hnodup].
    cbn [for_each].
    rewrite (bind_returned _ _ s
               (if absent_from deps (dep, version)
                then Script (package_json s)
                            (stdout s ++ ["Added " +:+ dep +:+ ": " +:+ version]) (writes s)
                else s)
               (if absent_from deps (dep, version)
                then (with_section items (deps ++ [(dep, JStr version)]), S count)
                else (with_section items deps, count))); cycle 1.
    { rewrite (loop_turn_exact items deps dep version
                 (fun package => ret (package, S count))
                 (ret (with_section items deps, count)) s).
      by destruct (absent_from deps (dep, version)). }
    unfold new_entries, added_lines. simpl List.filter.
    destruct (absent_from deps (dep, version)) eqn:Habsent.
    + rewrite IH by done. unfold new_entries, added_lines.
      rewrite absent_from_app by done. simpl.
      rewrite <- !app_assoc. do 3 f_equal. lia.
    + by rewrite IH.
Qed.

Lemma missing_deps_distinct : NoDup (map fst AddDeps.missing_deps).
Proof. apply (bool_decide_unpack _). by vm_compute. Qed.

Lemma all_deps_distinct : NoDup (map fst AddAllDeps.all_deps).
Proof. apply (bool_decide_unpack _). by vm_compute. Qed.

Lemma with_section_present (items deps : list (string * json)) :
  Py.dict_get items "dependencies" = Some (JDict deps) ->
  with_section items deps = JDict items.
Proof. intros H. unfold with_section. by rewrite dict_set_present. Qed.

Lemma new_entries_nil (pairs : list (string * string)) :
  new_entries [] pairs = entries pairs /\ added_lines [] pairs
  = map (fun pair => "Added " +:+ fst pair +:+ ": " +:+ snd pair) pairs.
Proof.
  unfold new_entries, added_lines, entries.
  assert (List.filter (absent_from []) pairs = pairs) as ->; [|done].
  induction pairs as [|p pairs IH]; simpl; by rewrite ?IH.
Qed.

(** [add_deps.py] on a manifest that has its section. *)
Lemma add_deps_run (items deps : list (string * json)) :
  Py.dict_get items "dependencies" = Some (JDict deps) ->
  run AddDeps.main (JDict items)
  = (Returned tt,
     Script (with_section items (deps ++ new_entries deps AddDeps.missing_deps))
            (added_lines deps AddDeps.missing_deps ++ ["Dependencies updated!"])
            1).
Proof.
  intros Hsection. unfold run, AddDeps.main.
  rewrite (bind_returned json_load _ _ (Script (JDict items) [] 0) (JDict items)) by done.
  rewrite (bind_returned (lift _) _ _ (Script (JDict items) [] 0) true)
    by (unfold lift; simpl; by rewrite Hsection, bool_decide_eq_true_2 by eauto).
  rewrite (bind_returned (ret (JDict items)) _ _ (Script (JDict items) [] 0) (JDict items))
    by done.
  rewrite <- (with_section_present items deps Hsection) at 1.
  by rewrite (bind_returned _ _ _ _ _
                (add_deps_loop_exact AddDeps.missing_deps items deps _ missing_deps_distinct)).
Qed.


(** [add_deps.py] on an object without the section. *)
Lemma add_deps_run_fresh (items : list (string * json)) :
  Py.dict_get items "dependencies" = None ->
  run AddDeps.main (JDict items)
  = (Returned tt,
     Script (JDict (items ++ [("dependencies", JDict (entries AddDeps.missing_deps))]))
            (map (fun pair => "Added " +:+ fst pair +:+ ": " +:+ snd pair)
                 AddDeps.missing_deps
             ++ ["Dependencies updated!"])
            1).
Proof.
  intros Hsection. unfold run, AddDeps.main.
  rewrite (bind_returned json_load _ _ (Script (JDict items) [] 0) (JDict items)) by done.
  rewrite (bind_returned (lift _) _ _ (Script (JDict items) [] 0) false)
    by (unfold lift; simpl;
        by rewrite Hsection, bool_decide_eq_false_2 by (by intros [? [=]])).
  rewrite (bind_returned _ _ (Script (JDict items) [] 0) (Script (JDict items) [] 0)
             (with_section items []))
    by (unfold lift, with_section; by simpl).
  rewrite (bind_returned _ _ _ _ _
             (add_deps_loop_exact AddDeps.missing_deps items [] _ missing_deps_distinct)).
  destruct (new_entries_nil AddDeps.missing_deps) as [-> ->].
  unfold with_section. by rewrite dict_set_absent by done.
Qed.


(** [add_all_deps.py] on a manifest that has its section. *)
Lemma add_all_deps_run (items deps : list (string * json)) :
  Py.dict_get items "dependencies" = Some (JDict deps) ->
  run AddAllDeps.main (JDict items)
  = (Returned tt,
     Script (with_section items (deps ++ new_entries deps AddAllDeps.all_deps))
            (added_lines deps AddAllDeps.all_deps
             ++ [ match new_entries deps AddAllDeps.all_deps with
                  | [] => "No new dependencies to add."
                  | added =>
                      "\nAdded " +:+ pretty (length added) +:+ " dependencies!"
                  end ])
            (match new_entries deps AddAllDeps.all_deps with [] => 0 | _ :: _ => 1 end)).
Proof.
  intros Hsection. unfold run, AddAllDeps.main.
  rewrite (bind_returned json_load _ _ (Script (JDict items) [] 0) (JDict items)) by done.
  rewrite <- (with_section_present items deps Hsection) at 1.
  rewrite (bind_returned _ _ _ _ _
             (add_all_deps_loop_exact AddAllDeps.all_deps items deps 0 _ all_deps_distinct)).
  cbn [Nat.add].
  destruct (new_entries deps AddAllDeps.all_deps) as [|entry added] eqn:Hnew.
  - rewrite app_nil_r, (with_section_present items deps Hsection). reflexivity.
  - reflexivity.
Qed.


(** X1.  On a manifest that has its dependencies section, [add_deps.py]
    completes and writes the manifest back, once, with the section extended at its
    end by the listed pairs whose key it lacked, in the order of the list;
    the entries it had keep their values and their order, and one line is
    printed for each entry added, before the closing line. *)
Theorem add_deps_appends_what_is_missing (items deps : list (string * json)) :
  Py.dict_get items "dependencies" = Some (JDict deps) ->
  run AddDeps.main (JDict items)
  = (Returned tt,
     Script (with_section items (deps ++ new_entries deps AddDeps.missing_deps))
            (added_lines deps AddDeps.missing_deps ++ ["Dependencies updated!"])
            1).
Proof. apply add_deps_run. Qed.

Lemma add_deps_appends_what_is_missing_witness :
  run AddDeps.main
    (JDict [("dependencies", JDict [("express", JStr "^3.0.0")]); ("name", JStr "js-lua")])
  = (Returned tt,
     Script (with_section
               [("dependencies", JDict [("express", JStr "^3.0.0")]); ("name", JStr "js-lua")]
               ([("express", JStr "^3.0.0")]
                ++ new_entries [("express", JStr "^3.0.0")] AddDeps.missing_deps))
            (added_lines [("express", JStr "^3.0.0")] AddDeps.missing_deps
             ++ ["Dependencies updated!"])
            1).
Proof.
  apply (add_deps_appends_what_is_missing
           [("dependencies", JDict [("express", JStr "^3.0.0")]); ("name", JStr "js-lua")]
           [("express", JStr "^3.0.0")]).
  reflexivity.
Defined.

(** X2.  On an object without a dependencies section, [add_deps.py] puts
    the section after the last key of the manifest, holding every listed
    pair in the order of the list, and prints a line for each. *)
Theorem add_deps_creates_the_section (items : list (string * json)) :
  Py.dict_get items "dependencies" = None ->
  run AddDeps.main (JDict items)
  = (Returned tt,
     Script (JDict (items ++ [("dependencies", JDict (entries AddDeps.missing_deps))]))
            (map (fun pair => "Added " +:+ fst pair +:+ ": " +:+ snd pair)
                 AddDeps.missing_deps
             ++ ["Dependencies updated!"])
            1).
Proof. apply add_deps_run_fresh. Qed.

Lemma add_deps_creates_the_section_witness :
  run AddDeps.main (JDict [("name", JStr "js-lua")])
  = (Returned tt,
     Script (JDict ([("name", JStr "js-lua")]
                    ++ [("dependencies", JDict (entries AddDeps.missing_deps))]))
            (map (fun pair => "Added " +:+ fst pair +:+ ": " +:+ snd pair)
                 AddDeps.missing_deps
             ++ ["Dependencies updated!"])
            1).
Proof.
  apply (add_deps_creates_the_section [("name", JStr "js-lua")]). reflexivity.
Defined.

(** X3.  On a manifest that has its dependencies section, [add_all_deps.py]
    completes with the section extended in the same way; the number in its
    last line is the number of entries added, and the file is written
    once.  When no entry is added the file is not opened for writing at
    all, and the last line says so. *)
Theorem add_all_deps_counts_what_it_adds (items deps : list (string * json)) :
  Py.dict_get items "dependencies" = Some (JDict deps) ->
  run AddAllDeps.main (JDict items)
  = (Returned tt,
     Script (with_section items (deps ++ new_entries deps AddAllDeps.all_deps))
            (added_lines deps AddAllDeps.all_deps
             ++ [ match new_entries deps AddAllDeps.all_deps with
                  | [] => "No new dependencies to add."
                  | added =>
                      "\nAdded " +:+ pretty (length added) +:+ " dependencies!"
                  end ])
            (match new_entries deps AddAllDeps.all_deps with [] => 0 | _ :: _ => 1 end)).
Proof. apply add_all_deps_run. Qed.

Lemma add_all_deps_counts_what_it_adds_witness :
  run AddAllDeps.main (JDict [("dependencies", JDict (entries AddAllDeps.all_deps))])
  = (Returned tt,
     Script (JDict [("dependencies", JDict (entries AddAllDeps.all_deps))])
            ["No new dependencies to add."]
            0).
Proof.
  exact (add_all_deps_counts_what_it_adds
           [("dependencies", JDict (entries AddAllDeps.all_deps))]
           (entries AddAllDeps.all_deps) eq_refl).
Defined.

(** ** The patchers: running them again, and what they leave alone *)

Lemma dict_get_app (a b : list (string * json)) (key : string) :
  Py.dict_get (a ++ b) key
  = match Py.dict_get a key with Some v => Some v | None => Py.dict_get b key end.
Proof.
  induction a as [|[k v] a IH]; simpl; [done|]. by destruct (String.eqb k key).
Qed.

Lemma dict_get_new_entries (deps : list (string * json)) (pairs : list (string * string))
    (pair : string * string) :
  pair ∈ pairs ->
  is_Some (Py.dict_get (deps ++ new_entries deps pairs) (fst pair)).
Proof.
  intros Hin. rewrite dict_get_app.
  destruct (Py.dict_get deps (fst pair)) as [v|] eqn:Hdeps; [by eexists|].
  unfold new_entries.
  induction pairs as [|p pairs IH]; [by apply elem_of_nil in Hin|].
  apply elem_of_cons in Hin as [<-|Hin]; cbn [List.filter].
  - unfold absent_from at 1. rewrite Hdeps. simpl. rewrite String.eqb_refl. by eexists.
  - destruct (absent_from deps p); [|by apply IH].
    simpl. destruct (String.eqb (fst p) (fst pair)); [by eexists | by apply IH].
Qed.

Lemma nothing_left_to_add (deps : list (string * json)) (pairs : list (string * string)) :
  new_entries (deps ++ new_entries deps pairs) pairs = []
  /\ added_lines (deps ++ new_entries deps pairs) pairs = [].
Proof.
  unfold new_entries at 1, added_lines.
  assert (List.filter (absent_from (deps ++ new_entries deps pairs)) pairs = []) as ->;
    [|done].
  assert (forall pair, pair ∈ pairs ->
            absent_from (deps ++ new_entries deps pairs) pair = false) as Hall.
  { intros pair Hin. unfold absent_from.
    by destruct (dict_get_new_entries deps pairs pair Hin) as [v ->]. }
  revert Hall. generalize (deps ++ new_entries deps pairs). intros deps' Hall.
  induction pairs as [|p pairs IH]; [done|].
  cbn [List.filter]. rewrite Hall by apply list_elem_of_here.
  apply IH. intros pair Hin. apply Hall. by apply list_elem_of_further.
Qed.

Lemma manifest_section (doc : json) :
  manifest doc ->
  exists items deps,
    doc = JDict items
    /\ (Py.dict_get items "dependencies" = None /\ deps = []
        \/ Py.dict_get items "dependencies" = Some (JDict deps)).
Proof. intros (items & -> & [H|[deps H]]); [exists items, [] | exists items, deps]; auto. Qed.

(** What [add_deps.py] leaves in the file, for a manifest with or without
    its section. *)
Lemma add_deps_on_manifest (items : list (string * json)) :
  manifest (JDict items) ->
  exists (deps : list (string * json)) (out : list string),
    (Py.dict_get items "dependencies" = None /\ deps = []
     \/ Py.dict_get items "dependencies" = Some (JDict deps))
    /\ run AddDeps.main (JDict items)
       = (Returned tt,
          Script (with_section items (deps ++ new_entries deps AddDeps.missing_deps)) out 1).
Proof.
  intros Hdoc.
  destruct (manifest_section _ Hdoc) as (items' & deps & [= <-] & [[Hnone ->]|Hsome]).
  - eexists [], _. split; [by left|].
    rewrite add_deps_run_fresh by done.
    destruct (new_entries_nil AddDeps.missing_deps) as [-> _].
    unfold with_section. by rewrite dict_set_absent by done.
  - eexists deps, _. split; [by right|].
    by rewrite (add_deps_run items deps).
Qed.

(** X4.  Running [add_deps.py] a second time changes nothing: on the
    manifest its first run left, it adds no entry, prints its closing line
    alone and writes the same manifest back, once. *)
Theorem add_deps_is_idempotent (doc : json) :
  manifest doc ->
  run AddDeps.main (package_json (snd (run AddDeps.main doc)))
  = (Returned tt,
     Script (package_json (snd (run AddDeps.main doc))) ["Dependencies updated!"] 1).
Proof.
  intros Hdoc. pose proof Hdoc as (items & -> & _).
  destruct (add_deps_on_manifest items Hdoc) as (deps & out & _ & ->).
  cbn [snd package_json]. unfold with_section at 1 2.
  rewrite add_deps_run
    with (deps := deps ++ new_entries deps AddDeps.missing_deps)
    by apply dict_get_set_same.
  destruct (nothing_left_to_add deps AddDeps.missing_deps) as [-> ->].
  unfold with_section. by rewrite dict_set_set, app_nil_r.
Qed.

Lemma add_deps_is_idempotent_witness :
  run AddDeps.main (package_json (snd (run AddDeps.main (JDict [("name", JStr "js-lua")]))))
  = (Returned tt,
     Script (package_json (snd (run AddDeps.main (JDict [("name", JStr "js-lua")]))))
            ["Dependencies updated!"] 1).
Proof.
  apply (add_deps_is_idempotent (JDict [("name", JStr "js-lua")])).
  exists [("name", JStr "js-lua")]. split; [reflexivity | left; reflexivity].
Defined.

(** X5.  Running [add_all_deps.py] a second time changes nothing: on the
    manifest its first run left, it adds no entry, does not open the file
    for writing (the count of writes of the second run is 0) and reports
    that there is nothing new. *)
Theorem add_all_deps_is_idempotent (doc : json) :
  is_Some (dependencies_of doc) ->
  run AddAllDeps.main (package_json (snd (run AddAllDeps.main doc)))
  = (Returned tt,
     Script (package_json (snd (run AddAllDeps.main doc)))
            ["No new dependencies to add."] 0).
Proof.
  intros [deps Hdeps]. unfold dependencies_of in Hdeps.
  destruct doc as [| | | | | |items]; try done.
  destruct (Py.dict_get items "dependencies") as [[| | | | | |deps0]|] eqn:Hsection;
    try done.
  injection Hdeps as ->.
  rewrite (add_all_deps_run items deps) by done.
  cbn [snd package_json]. unfold with_section at 1 2.
  rewrite add_all_deps_run
    with (deps := deps ++ new_entries deps AddAllDeps.all_deps)
    by apply dict_get_set_same.
  destruct (nothing_left_to_add deps AddAllDeps.all_deps) as [-> ->].
  unfold with_section. by rewrite dict_set_set, app_nil_r.
Qed.

Lemma add_all_deps_is_idempotent_witness :
  run AddAllDeps.main
    (package_json (snd (run AddAllDeps.main (JDict [("dependencies", JDict [])]))))
  = (Returned tt,
     Script (package_json (snd (run AddAllDeps.main (JDict [("dependencies", JDict [])]))))
            ["No new dependencies to add."] 0).
Proof.
  apply (add_all_deps_is_idempotent (JDict [("dependencies", JDict [])])).
  exists []. reflexivity.
Defined.

(** ** The patchers on any document

    What holds for every document [json.load] can return, a manifest or
    not: where a run can stop, and what it can have changed by then. *)

Lemma only_section_differs_refl (doc : json) : only_section_differs doc doc.
Proof. by left. Qed.

Lemma only_section_differs_trans (a b c : json) :
  only_section_differs a b -> only_section_differs b c -> only_section_differs a c.
Proof.
  intros [->|(items & section & -> & ->)] [->|(items' & section' & Hb & ->)].
  - by left.
  - right. eauto.
  - right. eauto.
  - injection Hb as <-. right. exists items, section'. by rewrite dict_set_set.
Qed.

(** [package['dependencies'][dep] = value] once [package['dependencies']]
    was read: a [TypeError], or the same object with another section. *)
Lemma setitem_at_any (package section : json) (dep : string) (value : json) :
  Py.getitem package "dependencies" = Returned section ->
  Py.setitem_at package "dependencies" dep value = Raised TypeError
  \/ exists items section',
       package = JDict items
       /\ Py.setitem_at package "dependencies" dep value
          = Returned (JDict (Py.dict_set items "dependencies" section')).
Proof.
  destruct package as [| | | | | |items]; try done.
  unfold Py.setitem_at. intros ->.
  destruct section; simpl; eauto.
Qed.

Lemma getitem_raises (package : json) (key : string) (e : exn) :
  Py.getitem package key = Raised e ->
  e = TypeError
  \/ e = KeyError key /\ exists items, package = JDict items /\ Py.dict_get items key = None.
Proof.
  destruct package as [| | | | | |items]; simpl; try (intros [= <-]; by left).
  destruct (Py.dict_get items key) eqn:Hkey; [done|].
  intros [= <-]. right. eauto.
Qed.

Lemma contains_raises (key : string) (container : json) (e : exn) :
  Py.contains key container = Raised e -> e = TypeError.
Proof. destruct container; simpl; congruence. Qed.

(** One turn of either loop on any document: it stops with an exception
    and nothing printed, or goes on with the document as it was, or goes
    on with another section in it after a line is printed.  The exception
    is a [TypeError], or the [KeyError] of an object without the key. *)
Lemma loop_turn_any {B : Type} (package : json) (dep version : string)
    (added : json -> M script B) (kept : M script B) (s : script) :
  (exists e,
     (deps <- lift (Py.getitem package "dependencies") ;;
      present <- lift (Py.contains dep deps) ;;
      if negb present then
        package <- lift (Py.setitem_at package "dependencies" dep (JStr version)) ;;
        print ("Added " +:+ dep +:+ ": " +:+ version) ;;
        added package
      else kept) s = (Raised e, s)
     /\ (e = TypeError
         \/ e = KeyError "dependencies"
            /\ exists items,
                 package = JDict items /\ Py.dict_get items "dependencies" = None))
  \/ (deps <- lift (Py.getitem package "dependencies") ;;
      present <- lift (Py.contains dep deps) ;;
      if negb present then
        package <- lift (Py.setitem_at package "dependencies" dep (JStr version)) ;;
        print ("Added " +:+ dep +:+ ": " +:+ version) ;;
        added package
      else kept) s = kept s
  \/ (exists items section,
        package = JDict items
        /\ (deps <- lift (Py.getitem package "dependencies") ;;
            present <- lift (Py.contains dep deps) ;;
            if negb present then
              package <- lift (Py.setitem_at package "dependencies" dep (JStr version)) ;;
              print ("Added " +:+ dep +:+ ": " +:+ version) ;;
              added package
            else kept) s
           = added (JDict (Py.dict_set items "dependencies" section))
                   (Script (package_json s)
                           (stdout s ++ ["Added " +:+ dep +:+ ": " +:+ version]) (writes s))).
Proof.
  destruct (Py.getitem package "dependencies") as [section|e] eqn:Hget.
  2:{ left. exists e. split; [done | by apply getitem_raises]. }
  rewrite (bind_returned _ _ s s section) by done.
  destruct (Py.contains dep section) as [present|e] eqn:Hin.
  2:{ left. exists e. split; [done | left; by apply contains_raises in Hin]. }
  rewrite (bind_returned _ _ s s present) by done.
  destruct present; simpl; [by right; left|].
  destruct (setitem_at_any package section dep (JStr version) Hget)
    as [Hset|(items & section' & -> & Hset)].
  - left. exists TypeError. split; [|by left]. unfold bind, lift. by rewrite Hset.
  - right. right. exists items, section'. split; [done|].
    rewrite (bind_returned _ _ s s (JDict (Py.dict_set items "dependencies" section')))
      by (unfold lift; by rewrite Hset).
    by erewrite (bind_returned (print _)) by reflexivity.
Qed.

Lemma loop_end_step (items : list (string * json)) (section : json) (o : outcome json) :
  loop_end (JDict (Py.dict_set items "dependencies" section)) o ->
  loop_end (JDict items) o.
Proof.
  destruct o as [package'|e]; simpl.
  - apply only_section_differs_trans. right. eauto.
  - intros [->|[-> (items' & [= <-] & Hnone)]]; [by left|].
    by rewrite dict_get_set_same in Hnone.
Qed.

(** The loop of [add_deps.py] on any document: the file is not touched,
    and the loop ends as [loop_end] says. *)
Lemma add_deps_loop_any (pairs : list (string * string)) (package : json) (s : script) :
  exists (o : outcome json) (s' : script),
    for_each pairs package
      (fun package '(dep, version) =>
         deps <- lift (Py.getitem package "dependencies") ;;
         present <- lift (Py.contains dep deps) ;;
         if negb present then
           package <- lift (Py.setitem_at package "dependencies" dep (JStr version)) ;;
           print ("Added " +:+ dep +:+ ": " +:+ version) ;;
           ret package
         else ret package) s
    = (o, s')
    /\ package_json s' = package_json s
    /\ writes s' = writes s
    /\ loop_end package o.
Proof.
  revert package s. induction pairs as [|[dep version] pairs IH]; intros package s.
  - exists (Returned package), s. repeat split. apply only_section_differs_refl.
  - cbn [for_each].
    destruct (loop_turn_any package dep version ret (ret package) s)
      as [(e & Hturn & He)|[Hturn|(items & section & -> & Hturn)]].
    + exists (Raised e), s. unfold bind at 1. by rewrite Hturn.
    + rewrite (bind_returned _ _ _ _ _ Hturn). apply IH.
    + rewrite (bind_returned _ _ _ _ _ Hturn).
      destruct (IH (JDict (Py.dict_set items "dependencies" section))
                  (Script (package_json s)
                          (stdout s ++ ["Added " +:+ dep +:+ ": " +:+ version]) (writes s)))
        as (o & s' & Hloop & Hfile & Hwrites & Hend).
      exists o, s'. split; [done|]. split; [done|]. split; [done|].
      by apply loop_end_step with section.
Qed.

(** The loop of [add_all_deps.py], likewise. *)
Lemma add_all_deps_loop_any (pairs : list (string * string)) (package : json)
    (count : nat) (s : script) :
  exists (o : outcome (json * nat)) (s' : script),
    for_each pairs (package, count)
      (fun '(package, added_count) '(dep, version) =>
         deps <- lift (Py.getitem package "dependencies") ;;
         present <- lift (Py.contains dep deps) ;;
         if negb present then
           package <- lift (Py.setitem_at package "dependencies" dep (JStr version)) ;;
           print ("Added " +:+ dep +:+ ": " +:+ version) ;;
           ret (package, S added_count)
         else ret (package, added_count)) s
    = (o, s')
    /\ package_json s' = package_json s
    /\ writes s' = writes s
    /\ loop_end package
         match o with Returned r => Returned (fst r) | Raised e => Raised e end.
Proof.
  revert package count s.
  induction pairs as [|[dep version] pairs IH]; intros package count s.
  - exists (Returned (package, count)), s. repeat split. apply only_section_differs_refl.
  - cbn [for_each].
    destruct (loop_turn_any package dep version
                (fun package => ret (package, S count)) (ret (package, count)) s)
      as [(e & Hturn & He)|[Hturn|(items & section & -> & Hturn)]].
    + exists (Raised e), s. unfold bind at 1. by rewrite Hturn.
    + rewrite (bind_returned _ _ _ _ _ Hturn). apply IH.
    + rewrite (bind_returned _ _ _ _ _ Hturn).
      destruct (IH (JDict (Py.dict_set items "dependencies" section)) (S count)
                  (Script (package_json s)
                          (stdout s ++ ["Added " +:+ dep +:+ ": " +:+ version]) (writes s)))
        as (o & s' & Hloop & Hfile & Hwrites & Hend).
      exists o, s'. split; [done|]. split; [done|]. split; [done|].
      by apply loop_end_step with section.
Qed.

(** [add_deps.py] on any document: it completes and only the section
    differs, or it raises [TypeError] with the file as it was. *)
Lemma add_deps_any (doc : json) :
  (exists (doc' : json) (out : list string),
     run AddDeps.main doc = (Returned tt, Script doc' out 1)
     /\ only_section_differs doc doc')
  \/ (exists out : list string, run AddDeps.main doc = (Raised TypeError, Script doc out 0)).
Proof.
  unfold run, AddDeps.main.
  rewrite (bind_returned json_load _ _ (Script doc [] 0) doc) by done.
  destruct (Py.contains "dependencies" doc) as [present|e] eqn:Hin.
  2:{ right. exists []. apply contains_raises in Hin as ->. done. }
  rewrite (bind_returned (lift _) _ _ (Script doc [] 0) present) by done.
  assert ((exists package,
            (if negb present
             then lift (Py.setitem doc "dependencies" (JDict []))
             else ret doc) (Script doc [] 0) = (Returned package, Script doc [] 0)
            /\ only_section_differs doc package
            /\ forall o, loop_end package o -> loop_end doc o
                         /\ forall e, o = Raised e -> e = TypeError)
         \/ (if negb present
             then lift (Py.setitem doc "dependencies" (JDict []))
             else ret doc) (Script doc [] 0) = (Raised TypeError, Script doc [] 0))
    as [(package & Hguard & Hdiff & Hend)|Hguard].
  { destruct present; simpl.
    - left. exists doc. split; [done|]. split; [by left|].
      intros o Ho. split; [done|]. intros e ->.
      destruct Ho as [->|[-> (items & -> & Hnone)]]; [done|].
      simpl in Hin. rewrite Hnone in Hin. by rewrite bool_decide_eq_false_2 in Hin
        by (by intros [? [=]]).
    - destruct doc as [| | | | | |items]; try by right.
      left. eexists. split; [reflexivity|]. split; [right; eauto|].
      intros o Ho. split; [by apply loop_end_step in Ho|]. intros e ->.
      destruct Ho as [->|[-> (items' & [= <-] & Hnone)]]; [done|].
      by rewrite dict_get_set_same in Hnone. }
  2:{ right. exists []. unfold bind at 1. by rewrite Hguard. }
  rewrite (bind_returned _ _ _ _ _ Hguard).
  destruct (add_deps_loop_any AddDeps.missing_deps package (Script doc [] 0))
    as (o & [file out n] & Hloop & Hfile & Hwrites & Ho).
  simpl in Hfile, Hwrites. subst file n.
  destruct o as [package'|e].
  - rewrite (bind_returned _ _ _ _ _ Hloop). left. eexists _, _. split; [reflexivity|].
    by apply only_section_differs_trans with package.
  - right. exists out. unfold bind at 1. rewrite Hloop.
    by rewrite (proj2 (Hend _ Ho) e eq_refl).
Qed.

(** [add_all_deps.py] on any document: it completes and only the section
    differs, or it raises with the file as it was; what it raises is a
    [TypeError], or the [KeyError] of an object without the key. *)
Lemma add_all_deps_any (doc : json) :
  (exists (doc' : json) (out : list string) (n : nat),
     run AddAllDeps.main doc = (Returned tt, Script doc' out n)
     /\ only_section_differs doc doc')
  \/ (exists (e : exn) (out : list string),
        run AddAllDeps.main doc = (Raised e, Script doc out 0)
        /\ loop_end doc (Raised e)).
Proof.
  unfold run, AddAllDeps.main.
  rewrite (bind_returned json_load _ _ (Script doc [] 0) doc) by done.
  destruct (add_all_deps_loop_any AddAllDeps.all_deps doc 0%nat (Script doc [] 0))
    as (o & [file out n] & Hloop & Hfile & Hwrites & Ho).
  simpl in Hfile, Hwrites. subst file n.
  destruct o as [[package' count]|e].
  - rewrite (bind_returned _ _ _ _ _ Hloop). left.
    destruct (0 <? count)%nat.
    + eexists _, _, _. split; [reflexivity|]. exact Ho.
    + eexists _, _, _. split; [reflexivity|]. by left.
  - right. exists e, out. unfold bind at 1. by rewrite Hloop.
Qed.

(** X6.  A patcher that stops with an exception has not written: after a
    run on any document, the run completed, or [package.json] holds the
    document it held and was never opened for writing. *)
Theorem a_failed_patcher_run_writes_nothing (doc : json) :
  (fst (run AddDeps.main doc) = Returned tt
   \/ package_json (snd (run AddDeps.main doc)) = doc
      /\ writes (snd (run AddDeps.main doc)) = 0%nat)
  /\ (fst (run AddAllDeps.main doc) = Returned tt
      \/ package_json (snd (run AddAllDeps.main doc)) = doc
         /\ writes (snd (run AddAllDeps.main doc)) = 0%nat).
Proof.
  split.
  - destruct (add_deps_any doc) as [(doc' & out & -> & _)|(out & ->)]; [by left | by right].
  - destruct (add_all_deps_any doc) as [(doc' & out & n & -> & _)|(e & out & -> & _)];
      [by left | by right].
Qed.

(** X7.  Whatever the document, a patcher changes nothing in it but the
    value under [dependencies]: the file afterwards holds the document, or
    the same object with another value under that key, every other key
    with its value and in its place. *)
Theorem patchers_touch_only_the_section (doc : json) :
  only_section_differs doc (package_json (snd (run AddDeps.main doc)))
  /\ only_section_differs doc (package_json (snd (run AddAllDeps.main doc))).
Proof.
  split.
  - destruct (add_deps_any doc) as [(doc' & out & -> & H)|(out & ->)]; [done | by left].
  - destruct (add_all_deps_any doc) as [(doc' & out & n & -> & H)|(e & out & -> & _)];
      [done | by left].
Qed.

(** X8.  The guard of [add_deps.py] is what stands between a manifest
    without a dependencies section and a [KeyError]: [add_deps.py] raises
    [KeyError] on no document, and [add_all_deps.py], which has no guard,
    raises it exactly on the objects without the key [dependencies]. *)
Theorem key_error_exactly_without_the_guard (doc : json) (key : string) :
  fst (run AddDeps.main doc) <> Raised (KeyError key)
  /\ (fst (run AddAllDeps.main doc) = Raised (KeyError key)
      <-> key = "dependencies"
          /\ exists items, doc = JDict items /\ Py.dict_get items "dependencies" = None).
Proof.
  split; [|split].
  - by destruct (add_deps_any doc) as [(doc' & out & -> & _)|(out & ->)].
  - destruct (add_all_deps_any doc) as [(doc' & out & n & -> & _)|(e & out & -> & He)];
      [done|].
    simpl. intros [= ->]. by destruct He as [|[[= <-] ?]].
  - intros [-> (items & -> & Hnone)].
    unfold run, AddAllDeps.main, AddAllDeps.all_deps.
    rewrite (bind_returned json_load _ _ (Script (JDict items) [] 0) (JDict items)) by done.
    cbn [for_each]. unfold bind, lift. simpl Py.getitem. by rewrite Hnone.
Qed.

(** X9.  On a document that is not an object (a list, a string, a number,
    [true], [false] or [null]) both patchers stop with a [TypeError]
    before anything is printed or written. *)
Theorem patchers_reject_what_is_not_an_object (doc : json) :
  is_object doc = false ->
  run AddDeps.main doc = (Raised TypeError, Script doc [] 0)
  /\ run AddAllDeps.main doc = (Raised TypeError, Script doc [] 0).
Proof.
  intros Hdoc. split.
  - unfold run, AddDeps.main, AddDeps.missing_deps.
    rewrite (bind_returned json_load _ _ (Script doc [] 0) doc) by done.
    destruct doc as [| | | | | | ]; try done.
    + unfold bind at 1, lift at 1. simpl Py.contains.
      by destruct (Str.contains "dependencies" s).
    + unfold bind at 1, lift at 1. simpl Py.contains.
      by destruct (existsb (Py.is_str "dependencies") items).
  - unfold run, AddAllDeps.main, AddAllDeps.all_deps.
    rewrite (bind_returned json_load _ _ (Script doc [] 0) doc) by done.
    by destruct doc.
Qed.

Lemma patchers_reject_what_is_not_an_object_witness :
  run AddDeps.main (JList [JStr "dependencies"])
  = (Raised TypeError, Script (JList [JStr "dependencies"]) [] 0)
  /\ run AddAllDeps.main (JList [JStr "dependencies"])
     = (Raised TypeError, Script (JList [JStr "dependencies"]) [] 0).
Proof.
  apply (patchers_reject_what_is_not_an_object (JList [JStr "dependencies"])). reflexivity.
Defined.

(** ** The patchers: the version of every key afterwards *)

Lemma dict_get_new_entries_listed (deps : list (string * json))
    (pairs : list (string * string)) (key : string) :
  Py.dict_get deps key = None ->
  Py.dict_get (new_entries deps pairs) key = JStr <$> listed pairs key.
Proof.
  intros Hnone. unfold new_entries.
  induction pairs as [|[dep version] pairs IH]; [done|].
  cbn [List.filter listed]. unfold absent_from at 1. cbn [fst].
  destruct (String.eqb dep key) eqn:E.
  - apply String.eqb_eq in E as ->. rewrite Hnone. simpl. by rewrite String.eqb_refl.
  - destruct (Py.dict_get deps dep); [done|]. simpl. by rewrite E.
Qed.

Lemma dependency_version_with_section (items deps : list (string * json)) (key : string) :
  dependency_version (with_section items deps) key = Py.dict_get deps key.
Proof.
  unfold dependency_version, dependencies_of, with_section.
  by rewrite dict_get_set_same.
Qed.

Lemma merged_section (deps : list (string * json)) (pairs : list (string * string))
    (key : string) :
  Py.dict_get (deps ++ new_entries deps pairs) key
  = match Py.dict_get deps key with
    | Some version => Some version
    | None => JStr <$> listed pairs key
    end.
Proof.
  rewrite dict_get_app.
  destruct (Py.dict_get deps key) eqn:Hkey; [done|].
  by apply dict_get_new_entries_listed.
Qed.

(** X10.  The merge, key by key: in the manifest a patcher leaves behind,
    a key of the dependencies section has the version it had, and a key
    the section lacked has the version the patcher's list gives for it, or
    none if the list does not name it. *)
Theorem versions_after_the_merge (doc : json) (key : string) :
  is_Some (dependencies_of doc) ->
  dependency_version (package_json (snd (run AddDeps.main doc))) key
  = match dependency_version doc key with
    | Some version => Some version
    | None => JStr <$> listed AddDeps.missing_deps key
    end
  /\ dependency_version (package_json (snd (run AddAllDeps.main doc))) key
     = match dependency_version doc key with
       | Some version => Some version
       | None => JStr <$> listed AddAllDeps.all_deps key
       end.
Proof.
  intros [deps Hdeps]. unfold dependency_version at 2 4. rewrite Hdeps.
  unfold dependencies_of in Hdeps.
  destruct doc as [| | | | | |items]; try done.
  destruct (Py.dict_get items "dependencies") as [[| | | | | |deps0]|] eqn:Hsection;
    try done.
  injection Hdeps as ->.
  rewrite (add_deps_run items deps), (add_all_deps_run items deps) by done.
  cbn [snd package_json]. rewrite !dependency_version_with_section.
  split; apply merged_section.
Qed.

Lemma versions_after_the_merge_witness :
  dependency_version
    (package_json (snd (run AddDeps.main
       (JDict [("dependencies", JDict [("express", JStr "^3.0.0")])]))))
    "mongoose"
  = match dependency_version
            (JDict [("dependencies", JDict [("express", JStr "^3.0.0")])]) "mongoose" with
    | Some version => Some version
    | None => JStr <$> listed AddDeps.missing_deps "mongoose"
    end
  /\ dependency_version
       (package_json (snd (run AddAllDeps.main
          (JDict [("dependencies", JDict [("express", JStr "^3.0.0")])]))))
       "mongoose"
     = match dependency_version
               (JDict [("dependencies", JDict [("express", JStr "^3.0.0")])]) "mongoose" with
       | Some version => Some version
       | None => JStr <$> listed AddAllDeps.all_deps "mongoose"
       end.
Proof.
  apply (versions_after_the_merge
           (JDict [("dependencies", JDict [("express", JStr "^3.0.0")])]) "mongoose").
  exists [("express", JStr "^3.0.0")]. reflexivity.
Defined.

(** * The server: further properties *)

(** ** The course of a response *)

Section CourseRules.
Context {A B : Type}.
Implicit Types (P Q R : handler -> Prop) (m : M handler A) (k : A -> M handler B).

Lemma leads_ret P (a : A) : leads P (ret a : M handler A) P.
Proof. by intros h. Qed.

Lemma leads_bind P R Q m k :
  quiet m -> leads P m R -> (forall a, leads R (k a) Q) -> leads P (bind m k) Q.
Proof.
  intros Hquiet Hm Hk h Hh. specialize (Hm h Hh). specialize (Hquiet h). unfold bind.
  destruct (m h) as [[a|e] h']; simpl in *; [by apply Hk | done].
Qed.

Lemma leads_weaken P Q Q' m : (forall h, Q h -> Q' h) -> leads P m Q -> leads P m Q'.
Proof. intros HQ Hm h Hh. by apply HQ, Hm. Qed.

Lemma reaches_raise P Q (e : exn) :
  e = ValueError \/ e = UnicodeEncodeError -> reaches P (raise e : M handler A) Q.
Proof. intros He h _. left. by exists e. Qed.

Lemma reaches_leads P Q m : quiet m -> leads P m Q -> reaches P m Q.
Proof. intros Hquiet Hm h Hh. right. split; [apply Hquiet | by apply Hm]. Qed.

Lemma reaches_bind P Q m k :
  reaches P m Q -> (forall a, quiet (k a)) -> (forall a, leads Q (k a) Q) ->
  reaches P (bind m k) Q.
Proof.
  intros Hm Hquiet Hk h Hh. unfold bind.
  destruct (Hm h Hh) as [(e & -> & He)|[Hreturned HQ]]; [left; by exists e|].
  right. destruct (m h) as [[a|e] h']; simpl in *; [|done].
  split; [apply Hquiet | by apply Hk].
Qed.
End CourseRules.

#[local] Hint Resolve leads_ret : handler.

(** A chain of binds from one step of the response to the next. *)
Ltac course :=
  repeat first
    [ progress intros
    | solve [eauto with handler]
    | eapply leads_bind; [ solve [links @quiet_bind] | | ]
    | case_match ].

(** The cases of a method that can stop before the response starts. *)
Ltac stops_or_goes :=
  repeat first
    [ progress intros
    | solve [eauto with handler]
    | apply reaches_raise; solve [by left | by right]
    | case_match
    | apply reaches_leads; [ solve [links @quiet_bind] | solve [course] ] ].

(** The inherited methods take a response through its three steps,
    whatever the steps are, if [self.end_headers] takes the second to the
    third, unless they stop before the first.  They write a body only if
    the request is not a [HEAD]. *)
Section Phases.
Variables P0 P1 P2 : handler -> Prop.
Variable may_write : Prop.
Variable env : Env.
Variable req : request.
Variable self_end_headers : M handler unit.

Hypothesis status_first :
  forall v c m, c ∈ inherited_codes -> leads P0 (buffer_line (StatusLine v c m)) P1.
Hypothesis headers_follow :
  forall k v, k ∈ inherited_names -> leads P1 (buffer_line (HeaderLine k v)) P1.
Hypothesis close_kept : forall b, leads P1 (set_close_connection b) P1.
Hypothesis self_ends : leads P1 self_end_headers P2.
Hypothesis quiet_self : quiet self_end_headers.
Hypothesis body_last : may_write -> forall data, leads P2 (wfile_write data) P2.
Hypothesis not_head : negb (String.eqb (command req) "HEAD") = true -> may_write.

#[local] Hint Resolve self_ends quiet_self close_kept : handler.
#[local] Hint Resolve quiet_send_error : handler.
#[local] Hint Extern 1 (leads _ (wfile_write _) _) =>
  apply body_last; first [assumption | by apply not_head] : handler.

Lemma leads_send_header (k v : string) :
  k ∈ inherited_names -> leads P1 (BaseHTTPRequestHandler.send_header k v) P1.
Proof.
  intros Hk. unfold BaseHTTPRequestHandler.send_header.
  eapply leads_bind; [auto with handler | by apply headers_follow |]. course.
Qed.

#[local] Hint Extern 1 (leads _ (BaseHTTPRequestHandler.send_header _ _) _) =>
  apply leads_send_header; by repeat constructor : handler.

Lemma leads_send_response (code : Z) (message : option string) :
  code ∈ inherited_codes ->
  leads P0 (BaseHTTPRequestHandler.send_response env code message) P1.
Proof.
  intros Hcode.
  unfold BaseHTTPRequestHandler.send_response, BaseHTTPRequestHandler.send_response_only.
  eapply leads_bind; [auto with handler | by apply status_first |]. course.
Qed.

#[local] Hint Extern 1 (leads _ (BaseHTTPRequestHandler.send_response _ _ _) _) =>
  apply leads_send_response; first [assumption | by repeat constructor] : handler.

Lemma leads_send_error (code : Z) (message : option string) :
  code ∈ inherited_codes ->
  leads P0 (BaseHTTPRequestHandler.send_error env req self_end_headers code message) P2.
Proof. intros Hcode. unfold BaseHTTPRequestHandler.send_error. course. Qed.

#[local] Hint Extern 1 (leads _ (BaseHTTPRequestHandler.send_error _ _ _ _ _) _) =>
  apply leads_send_error; first [assumption | by repeat constructor] : handler.

Lemma reaches_list_directory (path : string) :
  reaches P0 (SimpleHTTPRequestHandler.list_directory env req self_end_headers path) P2.
Proof. unfold SimpleHTTPRequestHandler.list_directory. stops_or_goes. Qed.

Lemma reaches_send_file (table : gmap string string) (path : string) :
  reaches P0 (SimpleHTTPRequestHandler.send_file env req self_end_headers table path) P2.
Proof. unfold SimpleHTTPRequestHandler.send_file. stops_or_goes. Qed.

#[local] Hint Resolve reaches_list_directory reaches_send_file : handler.

Lemma reaches_send_head (table : gmap string string) :
  reaches P0 (SimpleHTTPRequestHandler.send_head env req self_end_headers table) P2.
Proof. unfold SimpleHTTPRequestHandler.send_head. stops_or_goes. Qed.

Lemma reaches_do_GET (table : gmap string string) :
  may_write ->
  reaches P0 (SimpleHTTPRequestHandler.do_GET env req self_end_headers table) P2.
Proof.
  intros Hwrite. unfold SimpleHTTPRequestHandler.do_GET.
  apply reaches_bind; [apply reaches_send_head | |];
    intros [content|]; auto with handler.
Qed.

Lemma reaches_do_HEAD (table : gmap string string) :
  reaches P0 (SimpleHTTPRequestHandler.do_HEAD env req self_end_headers table) P2.
Proof.
  unfold SimpleHTTPRequestHandler.do_HEAD.
  apply reaches_bind; [apply reaches_send_head | |]; auto with handler.
Qed.
End Phases.

(** ** The three steps on a handler of [serve.py] *)

Lemma read_headers_lines (hs : list (string * string)) (rest : list item) :
  read_headers (map Line (map header_line hs ++ [BlankLine]) ++ rest) = Some (hs, rest).
Proof.
  induction hs as [|[k v] hs IH]; [done|].
  simpl. by rewrite IH.
Qed.

Lemma response_of_written (version message : string) (r : response) :
  response_of (written version message r) = Some r.
Proof.
  unfold written. simpl. rewrite read_headers_lines, read_body_octets. by destruct r.
Qed.

Lemma untouched_fresh : untouched fresh.
Proof. by split. Qed.

Lemma opened_status (names : list string) (v : string) (c : Z) (m : string) :
  c ∈ inherited_codes -> leads untouched (buffer_line (StatusLine v c m)) (opened names).
Proof.
  intros Hc h [Hbuffer Hw]. split; [done|]. simpl. rewrite Hbuffer.
  by exists v, c, m, [].
Qed.

Lemma opened_header (names : list string) (k v : string) :
  k ∈ names -> leads (opened names) (buffer_line (HeaderLine k v)) (opened names).
Proof.
  intros Hk h [Hw (version & code & message & hs & Hbuffer & Hcode & Hnames)].
  split; [done|]. simpl. rewrite Hbuffer.
  exists version, code, message, (hs ++ [(k, v)]).
  split; [by rewrite map_app|]. split; [done|].
  apply Forall_app. split; [done|]. by apply Forall_singleton.
Qed.

Lemma opened_close (names : list string) (b : bool) :
  leads (opened names) (set_close_connection b) (opened names).
Proof. by intros h. Qed.

Lemma answered_end_headers (names : list string) (req : request) (B : bytes -> Prop) :
  B [] -> leads (opened names) (UltraFastHandler.end_headers req) (answered names req B).
Proof.
  intros HB h [Hw (version & code & message & hs & Hbuffer & Hcode & Hnames)].
  rewrite end_headers_run. split; [done|]. simpl.
  exists version, message, (Response code (hs ++ closing_headers req) []), hs.
  split; [|done].
  rewrite Hw, Hbuffer. unfold written, closing_headers. simpl.
  rewrite app_nil_r, (map_app header_line), <- app_assoc.
  by destruct (Str.endswith (path req) ".wasm").
Qed.

Lemma answered_write (names : list string) (req : request) (B : bytes -> Prop)
    (data : bytes) :
  (forall body, B body -> B (body ++ data)) ->
  leads (answered names req B) (wfile_write data) (answered names req B).
Proof.
  intros HB h [Hbuffer (version & message & r & hs & Hw & Hcode & Hlines & Hnames & Hbody)].
  split; [done|]. simpl.
  exists version, message, (Response (status r) (header_lines r) (body r ++ data)), hs.
  split; [|simpl; by auto].
  rewrite Hw. unfold written. simpl. by rewrite (map_app Octet), !app_assoc.
Qed.

Lemma answered_read (names : list string) (req : request) (B : bytes -> Prop)
    (env : Env) (p : string) :
  leads (answered names req B) (Os.read env p) (answered names req B).
Proof. apply preserves_read. Qed.

(** The fall-back, the inherited [do_HEAD] and the refusal of another
    method answer with headers of the inherited names, where they answer. *)
Lemma fallback_answers (env : Env) (req : request) :
  reaches untouched (raw_fallback env req)
    (answered inherited_names req (fun _ => True)).
Proof.
  apply (reaches_do_GET untouched (opened inherited_names) _ True);
    auto using opened_status, opened_header, opened_close, quiet_end_headers,
      answered_end_headers, answered_write.
Qed.

Lemma head_answers (env : Env) (req : request) :
  command req = "HEAD" ->
  reaches untouched
    (SimpleHTTPRequestHandler.do_HEAD env req (UltraFastHandler.end_headers req)
       (registered_types env))
    (answered inherited_names req (fun body => body = [])).
Proof.
  intros Hhead.
  apply (reaches_do_HEAD untouched (opened inherited_names) _ False);
    auto using opened_status, opened_header, opened_close, quiet_end_headers,
      answered_end_headers; [done|].
  by rewrite Hhead.
Qed.

Lemma refusal_answers (env : Env) (req : request) (message : option string) :
  leads untouched
    (BaseHTTPRequestHandler.send_error env req (UltraFastHandler.end_headers req)
       501 message)
    (answered inherited_names req (fun _ => True)).
Proof.
  apply (leads_send_error untouched (opened inherited_names) _ True);
    auto using opened_status, opened_header, opened_close, quiet_end_headers,
      answered_end_headers, answered_write.
  by repeat constructor.
Qed.

(** A compressed branch, run: the head goes out whatever the sibling is,
    and the body follows if the sibling can be read. *)
Lemma serve_compressed_run (env : Env) (req : request) (encoding sibling : string) :
  Str.endswith (path req) ".wasm" = true ->
  serve_compressed env req encoding sibling fresh
  = (match fs env ("." +:+ sibling) with
     | Some (File _ _) => Returned tt
     | Some (Dir _) => Raised (IsADirectoryError ("." +:+ sibling))
     | Some Invalid => Raised ValueError
     | None => Raised (FileNotFoundError ("." +:+ sibling))
     end,
     Handler []
       (written "HTTP/1.0" (reason env 200)
          (compressed_response env encoding (content_of env ("." +:+ sibling))))
       true).
Proof.
  intros Hwasm.
  unfold serve_compressed, UltraFastHandler.end_headers, Os.read, content_of, reason.
  rewrite Hwasm.
  by destruct (fs env ("." +:+ sibling)) as [[content mtime|listing|]|].
Qed.

(** Every way [handle] can go. *)
Lemma handle_cases (env : Env) (req : request) :
  command req = "GET" /\ compressed env req = true
  /\ UltraFastHandler.handle env req fresh
     = serve_compressed env req (encoding_taken env req)
         (path req +:+ (if brotli_offered env req then ".br" else ".gz")) fresh
  \/ (command req = "GET" /\ compressed env req = false
      /\ UltraFastHandler.handle env req fresh = raw_fallback env req fresh)
  \/ (command req = "HEAD"
      /\ UltraFastHandler.handle env req fresh
         = SimpleHTTPRequestHandler.do_HEAD env req (UltraFastHandler.end_headers req)
             (registered_types env) fresh)
  \/ (command req <> "GET" /\ command req <> "HEAD"
      /\ UltraFastHandler.handle env req fresh
         = BaseHTTPRequestHandler.send_error env req (UltraFastHandler.end_headers req) 501
             (Some ("Unsupported method (" +:+ repr env (command req) +:+ ")")) fresh).
Proof.
  unfold UltraFastHandler.handle, compressed, encoding_taken.
  destruct (String.eqb (command req) "GET") eqn:Hget.
  - apply String.eqb_eq in Hget. rewrite do_GET_run.
    destruct (Str.endswith (path req) ".wasm"); simpl; [|by right; left].
    destruct (brotli_offered env req); simpl; [by left|].
    destruct (gzip_offered env req); simpl; [by left | by right; left].
  - apply String.eqb_neq in Hget. right. right.
    destruct (String.eqb (command req) "HEAD") eqn:Hhead.
    + apply String.eqb_eq in Hhead. by left.
    + apply String.eqb_neq in Hhead. by right.
Qed.

(** ** Reading the response off an answered handler *)

Lemma answered_response (names : list string) (req : request) (B : bytes -> Prop)
    (h : handler) :
  answered names req B h ->
  headers_buffer h = []
  /\ exists r hs,
       response_of (wfile h) = Some r
       /\ status r ∈ inherited_codes
       /\ header_lines r = hs ++ closing_headers req
       /\ Forall (fun kv => fst kv ∈ names) hs
       /\ B (body r).
Proof.
  intros [Hbuffer (version & message & r & hs & Hw & H)]. split; [done|].
  exists r, hs. by rewrite Hw, response_of_written.
Qed.

Lemma compressed_spec (env : Env) (req : request) :
  compressed env req = true ->
  Str.endswith (path req) ".wasm" = true
  /\ Os.exists_ env (sibling_taken env req) = true
  /\ "." +:+ path req +:+ (if brotli_offered env req then ".br" else ".gz")
     = sibling_taken env req.
Proof.
  unfold compressed, sibling_taken. intros [Hwasm Hoffered]%andb_true_iff.
  split; [done|].
  destruct (brotli_offered env req) eqn:Hbr.
  - split; [|done]. unfold brotli_offered in Hbr. by apply andb_true_iff in Hbr as [_ ?].
  - split; [|done]. simpl in Hoffered. unfold gzip_offered in Hoffered.
    by apply andb_true_iff in Hoffered as [_ ?].
Qed.

(** What a compressed branch leaves, in terms of the sibling taken. *)
Lemma compressed_run (env : Env) (req : request) :
  compressed env req = true ->
  UltraFastHandler.do_GET env req fresh
  = (match fs env (sibling_taken env req) with
     | Some (Dir _) => Raised (IsADirectoryError (sibling_taken env req))
     | _ => Returned tt
     end,
     Handler []
       (written "HTTP/1.0" (reason env 200)
          (compressed_response env (encoding_taken env req)
             (content_of env (sibling_taken env req))))
       true).
Proof.
  intros Hcompressed.
  destruct (compressed_spec env req Hcompressed) as (Hwasm & Hexists & Hsibling).
  rewrite do_GET_run, Hwasm. simpl.
  unfold compressed in Hcompressed. rewrite Hwasm in Hcompressed. simpl in Hcompressed.
  unfold encoding_taken. rewrite <- Hsibling.
  unfold Os.exists_ in Hexists. rewrite <- Hsibling in Hexists.
  destruct (brotli_offered env req); simpl in *.
  - rewrite serve_compressed_run by done.
    by destruct (fs env ("." +:+ path req +:+ ".br")) as [[content mtime|listing|]|].
  - rewrite Hcompressed, serve_compressed_run by done.
    by destruct (fs env ("." +:+ path req +:+ ".gz")) as [[content mtime|listing|]|].
Qed.

Lemma handle_GET (env : Env) (req : request) :
  command req = "GET" ->
  UltraFastHandler.handle env req = UltraFastHandler.do_GET env req.
Proof. unfold UltraFastHandler.handle. by intros ->. Qed.

Lemma not_compressed_falls_back (env : Env) (req : request) (h : handler) :
  compressed env req = false ->
  UltraFastHandler.do_GET env req h = raw_fallback env req h.
Proof.
  intros Hcompressed. apply do_GET_falls_back. unfold falls_back.
  unfold compressed in Hcompressed. by rewrite Hcompressed.
Qed.

(** A method that reaches an answered handler, run on a fresh one. *)
Lemma reaches_fresh (env : Env) (req : request) (names : list string)
    (B : bytes -> Prop) (m : M handler unit) :
  UltraFastHandler.handle env req fresh = m fresh ->
  reaches untouched m (answered names req B) ->
  answered names req B (snd (m fresh)) /\ returned (fst (m fresh)) = true
  \/ unanswered env req.
Proof.
  intros Hhandle Hm.
  destruct (Hm fresh untouched_fresh) as [(e & Hraised & He)|[Hreturned Hanswered]].
  - right. exists e. by rewrite Hhandle.
  - by left.
Qed.

Lemma answered_more_names (names : list string) (req : request) (B : bytes -> Prop)
    (h : handler) :
  answered inherited_names req B h ->
  answered (inherited_names ++ names) req (fun _ => True) h.
Proof.
  intros [Hbuffer (version & message & r & hs & Hw & Hcode & Hlines & Hnames & _)].
  split; [done|]. exists version, message, r, hs. repeat (split; [done|]).
  split; [|done]. eapply Forall_impl; [exact Hnames|].
  intros kv Hkv. apply elem_of_app. by left.
Qed.

(** Whatever the request, [handle] leaves an answered handler, in a
    compressed branch with the headers of that branch and elsewhere with
    inherited ones, unless the request goes unanswered. *)
Lemma handle_answers (env : Env) (req : request) :
  answered (inherited_names ++ ["Content-Encoding"; "Cache-Control"]) req (fun _ => True)
    (snd (UltraFastHandler.handle env req fresh))
  \/ unanswered env req.
Proof.
  destruct (handle_cases env req)
    as [(Hget & Hcompressed & _)|[(Hget & Hcompressed & Hrun)|[(Hhead & Hrun)|(_ & _ & ->)]]].
  - left. rewrite (handle_GET _ _ Hget), compressed_run by done.
    destruct (compressed_spec env req Hcompressed) as (Hwasm & _).
    split; [done|]. simpl.
    eexists _, _, _,
      [ ("Server", version_string env); ("Date", date_time_string env None);
        ("Content-Type", "application/wasm");
        ("Content-Encoding", encoding_taken env req);
        ("Cache-Control", "public, max-age=31536000, immutable") ].
    split; [reflexivity|]. split; [by repeat constructor|].
    split; [unfold closing_headers; by rewrite Hwasm|].
    split; [|done]. repeat (apply Forall_cons; split; [by repeat constructor|]).
    apply Forall_nil_2.
  - destruct (reaches_fresh env req _ _ _ Hrun (fallback_answers env req))
      as [[Hanswered _]|Hnone]; [left | by right].
    rewrite Hrun. apply (answered_more_names _ _ _ _ Hanswered).
  - destruct (reaches_fresh env req _ _ _ Hrun (head_answers env req Hhead))
      as [[Hanswered _]|Hnone]; [left | by right].
    rewrite Hrun. apply (answered_more_names _ _ _ _ Hanswered).
  - left. apply (answered_more_names _ _ _ _
                   (refusal_answers env req _ fresh untouched_fresh)).
Qed.

(** X11.  Whatever the request, the client is sent exactly one response
    or nothing at all.  A response is a status line with one of the codes
    200, 301, 304, 404 and 501, header lines of which the last are those
    [end_headers] adds, the blank line, and after it nothing but the
    octets of the body, with no header line left in the buffer; it is
    complete also when [do_GET] raises in a compressed branch.  Nothing at
    all is sent when the inherited [send_head] raises on a path it cannot
    process. *)
Theorem every_request_gets_one_response_or_none (env : Env) (req : request) :
  (headers_buffer (snd (UltraFastHandler.handle env req fresh)) = []
   /\ exists (r : response) (hs : list (string * string)),
        response_of (wfile (snd (UltraFastHandler.handle env req fresh))) = Some r
        /\ status r ∈ inherited_codes
        /\ header_lines r = hs ++ closing_headers req)
  \/ unanswered env req.
Proof.
  destruct (handle_answers env req) as [Hanswered|Hnone]; [left | by right].
  destruct (answered_response _ _ _ _ Hanswered)
    as (Hbuffer & r & hs & Hr & Hcode & Hlines & _).
  split; [done|]. by exists r, hs.
Qed.

(** ** The values of a header *)

Lemma header_values_of (r : response) (name : string) :
  header_values r name = values_of (header_lines r) name.
Proof. reflexivity. Qed.

Lemma values_of_app (a b : list (string * string)) (name : string) :
  values_of (a ++ b) name = values_of a name ++ values_of b name.
Proof. unfold values_of. by rewrite filter_app, map_app. Qed.

(** Headers named otherwise have no value for [name]. *)
Lemma values_of_others (names : list string) (hs : list (string * string))
    (name : string) :
  forallb (fun k => negb (String.eqb (Str.lower k) (Str.lower name))) names = true ->
  Forall (fun kv => fst kv ∈ names) hs ->
  values_of hs name = [].
Proof.
  intros Hnames Hhs. unfold values_of.
  induction Hhs as [|[k v] hs Hk Hhs IH]; [done|].
  rewrite filter_cons_False; [done|].
  simpl. rewrite forallb_forall in Hnames.
  apply list_elem_of_In, Hnames, negb_true_iff in Hk. simpl in Hk. by rewrite Hk.
Qed.

Lemma cache_control_of_closing (req : request) :
  values_of (closing_headers req) "Cache-Control"
  = if Str.endswith (path req) ".wasm"
    then ["public, max-age=31536000, immutable"] else [].
Proof. unfold closing_headers. by destruct (Str.endswith (path req) ".wasm"). Qed.

Lemma content_encoding_of_closing (req : request) :
  values_of (closing_headers req) "Content-Encoding" = [].
Proof. unfold closing_headers. by destruct (Str.endswith (path req) ".wasm"). Qed.

(** X12.  [Cache-Control] goes with the path of the request and with
    nothing else: a response to a path that ends in [.wasm] carries the
    immutable [Cache-Control], whatever its status (a 404 and a 501 too),
    and carries it twice when [do_GET] takes a compressed branch; a
    response to any other path carries no [Cache-Control] at all. *)
Theorem cache_control_goes_with_the_path (env : Env) (req : request) :
  (exists r : response,
     response_of (wfile (snd (UltraFastHandler.handle env req fresh))) = Some r
     /\ header_values r "Cache-Control"
        = if String.eqb (command req) "GET" && compressed env req then
            [ "public, max-age=31536000, immutable";
              "public, max-age=31536000, immutable" ]
          else if Str.endswith (path req) ".wasm" then
            [ "public, max-age=31536000, immutable" ]
          else [])
  \/ unanswered env req.
Proof.
  assert (forall B h,
            answered inherited_names req B h ->
            exists r, response_of (wfile h) = Some r
              /\ header_values r "Cache-Control"
                 = if Str.endswith (path req) ".wasm"
                   then ["public, max-age=31536000, immutable"] else []) as Hinherited.
  { intros B h (_ & r & hs & Hr & _ & Hlines & Hnames & _)%answered_response.
    exists r. split; [done|].
    rewrite header_values_of, Hlines, values_of_app, cache_control_of_closing.
    by rewrite (values_of_others inherited_names). }
  destruct (handle_cases env req)
    as [(Hget & Hcompressed & _)|[(Hget & Hcompressed & Hrun)|[(Hhead & Hrun)|(Hget & _ & ->)]]].
  - left. rewrite (handle_GET _ _ Hget), compressed_run, Hget, Hcompressed by done.
    eexists. simpl wfile. by rewrite response_of_written.
  - destruct (reaches_fresh env req _ _ _ Hrun (fallback_answers env req))
      as [[Hanswered _]|Hnone]; [left | by right].
    rewrite Hrun, Hcompressed, andb_false_r. by apply Hinherited in Hanswered.
  - destruct (reaches_fresh env req _ _ _ Hrun (head_answers env req Hhead))
      as [[Hanswered _]|Hnone]; [left | by right].
    rewrite Hrun, Hhead. simpl. by apply Hinherited in Hanswered.
  - left. rewrite (proj2 (String.eqb_neq _ _) Hget). simpl.
    apply (Hinherited _ _ (refusal_answers env req _ fresh untouched_fresh)).
Qed.

(** X13.  A [HEAD] request is answered by the inherited [do_HEAD] alone:
    where it is answered, the response has no body and declares no
    [Content-Encoding], also where the same request sent as [GET] is
    answered from a compressed sibling. *)
Theorem head_is_never_compressed (env : Env) (req : request) :
  command req = "HEAD" ->
  (exists r : response,
     answer (UltraFastHandler.handle env req) = (Returned tt, Some r)
     /\ body r = []
     /\ header_values r "Content-Encoding" = [])
  \/ unanswered env req.
Proof.
  intros Hhead.
  destruct (handle_cases env req)
    as [(Hget & _)|[(Hget & _)|[(_ & Hrun)|(_ & Hnot & _)]]]; try congruence.
  destruct (reaches_fresh env req _ _ _ Hrun (head_answers env req Hhead))
    as [[Hanswered Hreturned]|Hnone]; [left | by right].
  destruct (answered_response _ _ _ _ Hanswered)
    as (_ & r & hs & Hr & _ & Hlines & Hnames & Hbody).
  unfold answer. rewrite Hrun.
  destruct (SimpleHTTPRequestHandler.do_HEAD env req _ _ fresh) as [[[]|e] h]; [|done].
  exists r. simpl in Hr. rewrite Hr. split; [done|]. split; [done|].
  rewrite header_values_of, Hlines, values_of_app, content_encoding_of_closing.
  by rewrite (values_of_others inherited_names).
Qed.

Lemma head_is_never_compressed_witness :
  compressed Site.full (Request "GET" "/game.wasm" [("Accept-Encoding", "br")]) = true
  /\ header_values
       (Response 200
          [ ("Server", version_string Site.full);
            ("Date", date_time_string Site.full None);
            ("Content-type", "application/wasm");
            ("Content-Length", "11");
            ("Last-Modified", date_time_string Site.full (Some 1767225600));
            ("Cross-Origin-Opener-Policy", "same-origin");
            ("Cross-Origin-Embedder-Policy", "require-corp");
            ("Cache-Control", "public, max-age=31536000, immutable") ]
          []) "Content-Encoding" = []
  /\ answer (UltraFastHandler.handle Site.full
               (Request "HEAD" "/game.wasm" [("Accept-Encoding", "br")]))
     = (Returned tt,
        Some (Response 200
                [ ("Server", version_string Site.full);
                  ("Date", date_time_string Site.full None);
                  ("Content-type", "application/wasm");
                  ("Content-Length", "11");
                  ("Last-Modified", date_time_string Site.full (Some 1767225600));
                  ("Cross-Origin-Opener-Policy", "same-origin");
                  ("Cross-Origin-Embedder-Policy", "require-corp");
                  ("Cache-Control", "public, max-age=31536000, immutable") ]
                []))
  /\ ((exists r : response,
         answer (UltraFastHandler.handle Site.full
                   (Request "HEAD" "/game.wasm" [("Accept-Encoding", "br")]))
         = (Returned tt, Some r)
         /\ body r = []
         /\ header_values r "Content-Encoding" = [])
      \/ unanswered Site.full (Request "HEAD" "/game.wasm" [("Accept-Encoding", "br")])).
Proof.
  split; [reflexivity|]. split; [reflexivity|]. split; [reflexivity|].
  apply (head_is_never_compressed Site.full
           (Request "HEAD" "/game.wasm" [("Accept-Encoding", "br")])).
  reflexivity.
Defined.

(** X14.  When the sibling of the branch taken is a directory, the client
    has been sent the complete head of a compressed response, status 200
    with [Content-Encoding], before [do_GET] raises, and no body follows;
    after a [.br] directory the [.gz] sibling is not tried. *)
Theorem directory_sibling_gets_a_head_without_body (env : Env) (req : request) :
  compressed env req = true ->
  Os.isdir env (sibling_taken env req) = true ->
  answer (UltraFastHandler.do_GET env req)
  = (Raised (IsADirectoryError (sibling_taken env req)),
     Some (compressed_response env (encoding_taken env req) [])).
Proof.
  intros Hcompressed Hdir. unfold answer. rewrite compressed_run by done.
  simpl wfile. rewrite response_of_written. unfold content_of.
  unfold Os.isdir in Hdir.
  by destruct (fs env (sibling_taken env req)) as [[content mtime|listing|]|].
Qed.

Lemma directory_sibling_gets_a_head_without_body_witness :
  gzip_offered
    (Site.env (Site.at_ "/game.wasm.br" (Dir (Some []))
               ++ Site.at_ "/game.wasm.gz" (File Site.wasm_gz 1767225600)))
    Site.get_module_compressed = true
  /\ answer (UltraFastHandler.do_GET
               (Site.env (Site.at_ "/game.wasm.br" (Dir (Some []))
                          ++ Site.at_ "/game.wasm.gz" (File Site.wasm_gz 1767225600)))
               Site.get_module_compressed)
     = (Raised (IsADirectoryError "./game.wasm.br"),
        Some (compressed_response
                (Site.env (Site.at_ "/game.wasm.br" (Dir (Some []))
                           ++ Site.at_ "/game.wasm.gz" (File Site.wasm_gz 1767225600)))
                "br" [])).
Proof.
  split; [reflexivity|].
  apply (directory_sibling_gets_a_head_without_body
           (Site.env (Site.at_ "/game.wasm.br" (Dir (Some []))
                      ++ Site.at_ "/game.wasm.gz" (File Site.wasm_gz 1767225600)))
           Site.get_module_compressed);
    reflexivity.
Defined.

(** What the inherited [do_GET] answers for a regular file of type
    [application/wasm] asked for under a path that does not end in
    [.wasm]. *)
Lemma uncached_run (env : Env) (req : request) (content : bytes) (mtime : Z) :
  Str.endswith (path req) ".wasm" = false ->
  fs env (translate_path env (path req)) = Some (File content mtime) ->
  snd (Os.splitext (translate_path env (path req))) = ".wasm" ->
  SimpleHTTPRequestHandler.not_modified env req mtime = false ->
  answer (UltraFastHandler.do_GET env req)
  = (Returned tt,
     Some (Response 200
             [ ("Server", version_string env);
               ("Date", date_time_string env None);
               ("Content-type", "application/wasm");
               ("Content-Length", pretty (length content));
               ("Last-Modified", date_time_string env (Some mtime));
               ("Cross-Origin-Opener-Policy", "same-origin");
               ("Cross-Origin-Embedder-Policy", "require-corp") ]
             content)).
Proof.
  intros Hwasm Hfile Hext Hfresh.
  unfold answer. rewrite not_compressed_falls_back by (unfold compressed; by rewrite Hwasm).
  unfold raw_fallback, SimpleHTTPRequestHandler.do_GET, SimpleHTTPRequestHandler.send_head,
    SimpleHTTPRequestHandler.self_path, Os.isdir.
  rewrite Hfile. unfold SimpleHTTPRequestHandler.send_file.
  rewrite (wasm_extension_no_slash _ Hext), Hfile, Hfresh, (guess_type_wasm _ _ Hext).
  unfold UltraFastHandler.end_headers. rewrite Hwasm.
  run. by rewrite read_body_octets.
Qed.



(** X16.  The handler has [do_GET] and the inherited [do_HEAD] and no
    other method: a request with any other method ([POST], [PUT],
    [OPTIONS], ...) is answered 501 without an exception, with
    [Connection: close] and, as every response, the headers of
    [end_headers]. *)
Theorem other_methods_are_refused (env : Env) (req : request) :
  command req <> "GET" ->
  command req <> "HEAD" ->
  exists (r : response) (hs : list (string * string)),
    answer (UltraFastHandler.handle env req) = (Returned tt, Some r)
    /\ status r = 501
    /\ header_values r "Connection" = ["close"]
    /\ header_lines r = hs ++ closing_headers req.
Proof.
  intros Hget Hhead. unfold answer, UltraFastHandler.handle.
  rewrite (proj2 (String.eqb_neq _ _) Hget), (proj2 (String.eqb_neq _ _) Hhead).
  unfold BaseHTTPRequestHandler.send_error, UltraFastHandler.end_headers, closing_headers.
  change (200 <=? 501) with true.
  rewrite bool_decide_eq_false_2 by (rewrite !elem_of_cons, elem_of_nil; lia).
  rewrite (proj2 (String.eqb_neq _ _) Hhead).
  destruct (responses env 501) as [[short long]|];
    destruct (error_body env 501 _ _) as [|b data];
    destruct (Str.endswith (path req) ".wasm");
    run; rewrite ?read_body_octets; (do 2 eexists);
    (split; [reflexivity|]); (split; [reflexivity|]); (split; [reflexivity|]);
    by instantiate (1 := [_; _; _; _; _]).
Qed.

Lemma other_methods_are_refused_witness :
  exists (r : response) (hs : list (string * string)),
    answer (UltraFastHandler.handle Site.full (Request "POST" "/game.wasm" []))
    = (Returned tt, Some r)
    /\ status r = 501
    /\ header_values r "Connection" = ["close"]
    /\ header_lines r = hs ++ closing_headers (Request "POST" "/game.wasm" []).
Proof.
  apply (other_methods_are_refused Site.full (Request "POST" "/game.wasm" []));
    discriminate.
Defined.

(** ** Which requests go unanswered *)

(** A chain that cannot raise returns. *)
Ltac returns :=
  match goal with
  | |- returned (fst (?m ?h)) = true =>
      let Hquiet := fresh in
      assert (quiet m) as Hquiet by (links @quiet_bind); apply Hquiet
  end.

Section Returned.
Variable env : Env.
Variable req : request.
Variable self_end_headers : M handler unit.
Hypothesis quiet_self : quiet self_end_headers.

#[local] Hint Resolve quiet_self : handler.
#[local] Hint Resolve quiet_send_error : handler.

Lemma send_file_returned (table : gmap string string) (p : string) (h : handler) :
  returned (fst (SimpleHTTPRequestHandler.send_file env req self_end_headers table p h))
  = negb (negb (Str.endswith p "/")
          && match fs env p with Some Invalid => true | _ => false end).
Proof.
  unfold SimpleHTTPRequestHandler.send_file.
  destruct (Str.endswith p "/"); simpl; [returns|].
  destruct (fs env p) as [[content mtime|listing|]|]; simpl; first [returns | done].
Qed.

Lemma list_directory_returned (p : string) (h : handler) :
  Os.isdir env p = true ->
  returned (fst (SimpleHTTPRequestHandler.list_directory env req self_end_headers p h))
  = negb match fs env p with
         | Some (Dir (Some list)) =>
             match listing_body env (path req) p list with
             | None => true
             | Some _ => false
             end
         | _ => false
         end.
Proof.
  unfold SimpleHTTPRequestHandler.list_directory, SimpleHTTPRequestHandler.self_path,
    Os.isdir.
  destruct (fs env p) as [[content mtime|[list|]|]|]; try done; intros _; simpl;
    try returns.
  destruct (listing_body env (path req) p list); simpl; first [returns | done].
Qed.

Lemma send_head_returned (table : gmap string string) (h : handler) :
  returned (fst (SimpleHTTPRequestHandler.send_head env req self_end_headers table h))
  = negb (refused env req).
Proof.
  unfold SimpleHTTPRequestHandler.send_head, SimpleHTTPRequestHandler.self_path, refused.
  destruct (Os.isdir env (translate_path env (path req))) eqn:Hdir;
    [|apply send_file_returned].
  destruct (urlsplit_path env (path req)) as [parts_path|]; [|done].
  destruct (Str.endswith parts_path "/"); simpl; [|returns].
  destruct (Os.isfile env (Os.join _ "index.html")) eqn:Hhtml; simpl.
  { rewrite send_file_returned. unfold Os.isfile in Hhtml.
    by destruct (fs env (Os.join _ "index.html")) as [[| |]|]; rewrite ?andb_false_r. }
  destruct (Os.isfile env (Os.join _ "index.htm")) eqn:Hhtm; simpl.
  { rewrite send_file_returned. unfold Os.isfile in Hhtm.
    by destruct (fs env (Os.join _ "index.htm")) as [[| |]|]; rewrite ?andb_false_r. }
  by apply list_directory_returned.
Qed.

Lemma do_GET_returned (table : gmap string string) (h : handler) :
  returned (fst (SimpleHTTPRequestHandler.do_GET env req self_end_headers table h))
  = negb (refused env req).
Proof.
  unfold SimpleHTTPRequestHandler.do_GET, bind.
  rewrite <- (send_head_returned table h).
  by destruct (SimpleHTTPRequestHandler.send_head _ _ _ _ h) as [[[content|]|e] h'].
Qed.

Lemma do_HEAD_returned (table : gmap string string) (h : handler) :
  returned (fst (SimpleHTTPRequestHandler.do_HEAD env req self_end_headers table h))
  = negb (refused env req).
Proof.
  unfold SimpleHTTPRequestHandler.do_HEAD, bind.
  rewrite <- (send_head_returned table h).
  by destruct (SimpleHTTPRequestHandler.send_head _ _ _ _ h) as [[[content|]|e] h'].
Qed.
End Returned.

Lemma unanswered_spec (env : Env) (req : request) (m : M handler unit) :
  UltraFastHandler.handle env req fresh = m fresh ->
  reaches untouched m (answered inherited_names req (fun _ => True))
  \/ reaches untouched m (answered inherited_names req (fun body => body = [])) ->
  unanswered env req <-> returned (fst (m fresh)) = false.
Proof.
  intros Hhandle Hm. unfold unanswered. rewrite Hhandle. split.
  - by intros (e & -> & _).
  - intros Hraised.
    destruct Hm as [Hm|Hm];
      (destruct (Hm fresh untouched_fresh) as [(e & Hrun & He)|[Hreturned _]];
         [by exists e | congruence]).
Qed.

